(** * The i915 CPU-response QoS controller

    A shallow embedding of the delayed PM QoS update logic that appears
    twice in the tree:

    - [SfQos]: [intel_qos.c] with [struct intel_qos] (scaling response
      frequency), functions [time_to_sf_qos_update_ns], [intel_qos_update],
      [intel_qos_timeout], [intel_qos_overload_begin],
      [intel_qos_overload_end];
    - [RfQos]: [drivers/gpu/drm/i915/gt/intel_gt_pm.c] with the anonymous
      QoS struct of [struct intel_gt], functions [time_to_rf_qos_update_ns],
      [intel_gt_rf_qos_update], [intel_gt_rf_qos_timeout],
      [intel_gt_pm_active_begin], [intel_gt_pm_active_end].

    C integers are [Z] with every conversion and wrap-around written out.
    The code runs in a small state monad over a [world]: the controller
    struct, the pending timer, a counter of how many times the kernel clocks
    have been read, and the trace of calls made to the external services. *)

From Stdlib Require Import ZArith List Lia Bool.
Import ListNotations.
Local Open Scope Z_scope.

(** ** Fixed-width integers *)

(** Conversion to [u32] / [uint32_t] / [unsigned int]. *)
Definition to_u32 (x : Z) : Z := x mod 2 ^ 32.

(** Conversion to [u64] / [uint64_t]. *)
Definition to_u64 (x : Z) : Z := x mod 2 ^ 64.

(** Conversion to [unsigned long] (the type of [jiffies]); 64-bit kernel. *)
Definition to_ulong (x : Z) : Z := x mod 2 ^ 64.

(** Conversion to [s32] / [int32_t] / [int]: two's complement, as the kernel
    is built (the value is reduced modulo 2^32 into [-2^31, 2^31)). *)
Definition to_s32 (x : Z) : Z := (x + 2 ^ 31) mod 2 ^ 32 - 2 ^ 31.

(** Conversion to [s64], the payload type of [atomic64_t]. *)
Definition to_s64 (x : Z) : Z := (x + 2 ^ 63) mod 2 ^ 64 - 2 ^ 63.

Definition is_u32 (x : Z) : Prop := 0 <= x < 2 ^ 32.
Definition is_u64 (x : Z) : Prop := 0 <= x < 2 ^ 64.
Definition is_s32 (x : Z) : Prop := - 2 ^ 31 <= x < 2 ^ 31.
Definition is_s64 (x : Z) : Prop := - 2 ^ 63 <= x < 2 ^ 63.

Definition INT32_MAX : Z := 2 ^ 31 - 1.

(** [x << n] on a [u64] operand.  C defines it for [n < 64] only; results
    that depend on the shifted value are stated under that bound. *)
Definition shl_u64 (x n : Z) : Z := to_u64 (Z.shiftl x n).

(** [x >> n] on a [u32] operand.  C defines it for [n < 32] only. *)
Definition shr_u32 (x n : Z) : Z := Z.shiftr x n.

(** Unary minus on an [int] (wrapping, the kernel builds with
    -fno-strict-overflow). *)
Definition neg_s32 (x : Z) : Z := to_s32 (- x).

(** The kernel's [abs()] macro at type [int]:
    [({ int __x = (x); __x < 0 ? -__x : __x; })]. *)
Definition abs_s32 (x : Z) : Z := if x <? 0 then neg_s32 x else x.

(** The kernel's [min()] and [max()] macros at the types used here. *)
Definition min_u64 (x y : Z) : Z := if x <? y then x else y.
Definition max_s32 (x y : Z) : Z := if x >? y then x else y.

(** ** External services *)

(** What the controller needs from the rest of the kernel.  The clocks are
    oracles: the [k]-th read of any clock since boot sees [ktime_at k]
    nanoseconds, respectively [jiffies_at k] jiffies.  [nsecs_to_jiffies]
    and [PM_QOS_DEFAULT_VALUE] are declared in headers outside this tree and
    are left abstract; the latter is a constant of type [int]. *)
Class Kernel : Type := {
  ktime_at : nat -> Z;
  jiffies_at : nat -> Z;
  nsecs_to_jiffies : Z -> Z;
  PM_QOS_DEFAULT_VALUE : Z;
  PM_QOS_DEFAULT_VALUE_int : is_s32 PM_QOS_DEFAULT_VALUE
}.

(** Calls that leave the controller. *)
Inductive event : Type :=
| QosUpdateRequest (value : Z)   (* ..._qos_update_request(&req, value) *)
| TimerReduce (expires : Z).     (* timer_reduce(&timer, expires) *)

(** The state the code runs on; [Q] is the controller struct.  [timer] is
    the expiry of the pending timer, [None] when it is not pending.
    [trace] has the most recent call first. *)
Record world (Q : Type) : Type := World {
  dev : Q;
  timer : option Z;
  tick : nat;
  trace : list event
}.
Arguments World {Q}.
Arguments dev {Q}.
Arguments timer {Q}.
Arguments tick {Q}.
Arguments trace {Q}.

(** ** The state monad *)

Definition M (Q A : Type) : Type := world Q -> A * world Q.

Definition ret {Q A} (a : A) : M Q A := fun w => (a, w).

Definition bind {Q A B} (m : M Q A) (k : A -> M Q B) : M Q B :=
  fun w => let (a, w') := m w in k a w'.

Declare Scope qos_scope.
Delimit Scope qos_scope with qos.
Notation "x <- m ;; k" := (bind m (fun x => k))
  (at level 61, m at next level, right associativity) : qos_scope.
Notation "m ;;; k" := (bind m (fun _ => k))
  (at level 61, right associativity) : qos_scope.
Local Open Scope qos_scope.

Definition read {Q} (get : Q -> Z) : M Q Z := fun w => (get (dev w), w).

Definition modify {Q} (f : Q -> Q) : M Q unit :=
  fun w => (tt, World (f (dev w)) (timer w) (tick w) (trace w)).

Definition emit {Q} (e : event) : M Q unit :=
  fun w => (tt, World (dev w) (timer w) (tick w) (e :: trace w)).

Definition run {Q A} (m : M Q A) (w : world Q) : world Q := snd (m w).
Definition result {Q A} (m : M Q A) (w : world Q) : A := fst (m w).

(** ** Kernel primitives *)

Section Primitives.
Context {K : Kernel} {Q : Type}.

(** [ktime_get_ns()] returns a [u64]. *)
Definition ktime_get_ns : M Q Z :=
  fun w => (to_u64 (ktime_at (tick w)),
            World (dev w) (timer w) (S (tick w)) (trace w)).

(** A read of the global [jiffies]. *)
Definition jiffies : M Q Z :=
  fun w => (to_ulong (jiffies_at (tick w)),
            World (dev w) (timer w) (S (tick w)) (trace w)).

(** [atomic_read_acquire(&v)] on an [atomic_t]. *)
Definition atomic_read_acquire (get : Q -> Z) : M Q Z := read get.

(** [atomic64_read(&v)]: the [s64] payload. *)
Definition atomic64_read (get : Q -> Z) : M Q Z := read get.

(** [atomic64_set(&v, i)]: the argument is converted to [s64]. *)
Definition atomic64_set (set : Z -> Q -> Q) (i : Z) : M Q unit :=
  modify (set (to_s64 i)).

(** [atomic_fetch_inc_release(&v)]: returns the old value. *)
Definition atomic_fetch_inc_release (get : Q -> Z) (set : Z -> Q -> Q)
  : M Q Z :=
  old <- read get ;;
  modify (set (to_s32 (old + 1))) ;;;
  ret old.

(** [atomic_dec_return_release(&v)]: returns the new value. *)
Definition atomic_dec_return_release (get : Q -> Z) (set : Z -> Q -> Q)
  : M Q Z :=
  old <- read get ;;
  modify (set (to_s32 (old - 1))) ;;;
  ret (to_s32 (old - 1)).

(** Modelled from the spec: the deadline [reduce_to(deadline)] of the timer
    service leaves armed; a no-op if an earlier deadline is already
    armed. *)
Definition reduce_to (t : option Z) (expires : Z) : option Z :=
  match t with
  | None => Some expires
  | Some armed => if armed <=? expires then Some armed else Some expires
  end.

(** Modelled from the spec: [timer_reduce] lives in kernel/time/timer.c,
    outside this tree.  "Reduce" semantics: if a timer is already
    scheduled sooner, leave it; otherwise (re)arm to the new, sooner
    deadline ([reduce_to(deadline)] is a no-op if an earlier deadline is
    already armed). *)
Definition timer_reduce (expires : Z) : M Q unit :=
  emit (TimerReduce expires) ;;;
  (fun w => (tt, World (dev w) (reduce_to (timer w) expires)
                       (tick w) (trace w))).

(** Modelled from the spec: the timer service, absent from this tree,
    invokes the callback when the deadline elapses; the timer is no longer
    pending when the callback starts, and deadlines count "since the timer
    last fired". *)
Definition timer_expire : M Q unit :=
  fun w => (tt, World (dev w) None (tick w) (trace w)).
End Primitives.

(** ** intel_qos.c: the scaling-response-frequency controller *)

Module SfQos.

(** [struct intel_qos] without [req] and [timer], which live in the
    [world].  The two timestamps are [atomic64_t] ([s64] payload), the
    counter is an [atomic_t] ([int] payload), the rest is [u32]. *)
Record intel_qos : Type := IntelQos {
  target_hz : Z;
  delay_max_ns : Z;
  delay_slope_shift : Z;
  debug : Z;
  time_set_ns : Z;
  time_clear_ns : Z;
  active_count : Z
}.

Definition set_time_set_ns (v : Z) (q : intel_qos) : intel_qos :=
  IntelQos (target_hz q) (delay_max_ns q) (delay_slope_shift q) (debug q)
           v (time_clear_ns q) (active_count q).

Definition set_time_clear_ns (v : Z) (q : intel_qos) : intel_qos :=
  IntelQos (target_hz q) (delay_max_ns q) (delay_slope_shift q) (debug q)
           (time_set_ns q) v (active_count q).

Definition set_active_count (v : Z) (q : intel_qos) : intel_qos :=
  IntelQos (target_hz q) (delay_max_ns q) (delay_slope_shift q) (debug q)
           (time_set_ns q) (time_clear_ns q) v.

(** Every field holds a value of its C type. *)
Record wf (q : intel_qos) : Prop := {
  wf_target_hz : is_u32 (target_hz q);
  wf_delay_max_ns : is_u32 (delay_max_ns q);
  wf_delay_slope_shift : is_u32 (delay_slope_shift q);
  wf_time_set_ns : is_s64 (time_set_ns q);
  wf_time_clear_ns : is_s64 (time_clear_ns q);
  wf_active_count : is_s32 (active_count q)
}.

Section Code.
Context {K : Kernel}.

(** [cpu_scaling_response_qos_update_request(&qos->req, value)]. *)
Definition cpu_scaling_response_qos_update_request (value : Z)
  : M intel_qos unit :=
  emit (QosUpdateRequest value).

(** [static s32 time_to_sf_qos_update_ns(struct intel_qos *qos)]. *)
Definition time_to_sf_qos_update_ns : M intel_qos Z :=
  t1 <- ktime_get_ns ;;
  dt1 <- read (fun qos => to_u64 (delay_max_ns qos)) ;;
  c <- atomic_read_acquire active_count ;;
  if negb (c =? 0) then
    v <- atomic64_read time_set_ns ;;
    let t0 := to_u64 v in
    ret (to_s32 (min_u64 dt1 (if t0 <=? t1 then 0 else to_u64 (t0 - t1))))
  else
    v <- atomic64_read time_clear_ns ;;
    let t0 := to_u64 v in
    shift <- read delay_slope_shift ;;
    ret (neg_s32 (to_s32
           (if t1 <=? t0 then 1
            else min_u64 dt1 (shl_u64 (to_u64 (t1 - t0)) shift)))).

(** [static void intel_qos_update(struct intel_qos *qos)]. *)
Definition intel_qos_update : M intel_qos unit :=
  r <- time_to_sf_qos_update_ns ;;
  let dt := to_u32 (max_s32 0 r) in
  j <- jiffies ;;
  timer_reduce (to_ulong (j + to_ulong (nsecs_to_jiffies dt))).

(** [static void intel_qos_timeout(struct timer_list *timer)]. *)
Definition intel_qos_timeout : M intel_qos unit :=
  dt <- time_to_sf_qos_update_ns ;;
  let value := PM_QOS_DEFAULT_VALUE in
  value <- (if dt =? 0 then read (fun qos => to_s32 (target_hz qos))
            else ret value) ;;
  cpu_scaling_response_qos_update_request value ;;;
  if dt >? 0 then intel_qos_update else ret tt.

(** [void intel_qos_overload_begin(struct intel_qos *qos)]. *)
Definition intel_qos_overload_begin : M intel_qos unit :=
  r <- time_to_sf_qos_update_ns ;;
  let dt := to_u32 (abs_s32 r) in
  now <- ktime_get_ns ;;
  atomic64_set set_time_set_ns (to_u64 (now + dt)) ;;;
  old <- atomic_fetch_inc_release active_count set_active_count ;;
  if old =? 0 then intel_qos_update else ret tt.

(** [void intel_qos_overload_end(struct intel_qos *qos)]. *)
Definition intel_qos_overload_end : M intel_qos unit :=
  r <- time_to_sf_qos_update_ns ;;
  let dt := to_u32 (abs_s32 r) in
  shift <- read delay_slope_shift ;;
  now <- ktime_get_ns ;;
  atomic64_set set_time_clear_ns (to_u64 (now - shr_u32 dt shift)) ;;;
  new <- atomic_dec_return_release active_count set_active_count ;;
  if new =? 0 then intel_qos_update else ret tt.

(** The timer core running the callback of an expired timer. *)
Definition timer_fires : M intel_qos unit :=
  timer_expire ;;; intel_qos_timeout.

(** What can happen to a controller, one call at a time. *)
Inductive call : Type :=
| OverloadBegin
| OverloadEnd
| ScheduleUpdate
| TimerFires.

Definition step (c : call) : M intel_qos unit :=
  match c with
  | OverloadBegin => intel_qos_overload_begin
  | OverloadEnd => intel_qos_overload_end
  | ScheduleUpdate => intel_qos_update
  | TimerFires => timer_fires
  end.

Fixpoint exec (cs : list call) : M intel_qos unit :=
  match cs with
  | [] => ret tt
  | c :: cs' => step c ;;; exec cs'
  end.

End Code.
End SfQos.

(** ** intel_gt_pm.c: the response-frequency controller of [struct intel_gt] *)

Module RfQos.

(** The anonymous QoS struct inside [struct intel_gt] (intel_gt_types.h),
    again without [req] and [timer]. *)
Record rf_qos : Type := RfQosState {
  target_hz : Z;
  delay_max_ns : Z;
  delay_slope_shift : Z;
  time_set_ns : Z;
  time_clear_ns : Z;
  active_count : Z
}.

Definition set_time_set_ns (v : Z) (q : rf_qos) : rf_qos :=
  RfQosState (target_hz q) (delay_max_ns q) (delay_slope_shift q)
             v (time_clear_ns q) (active_count q).

Definition set_time_clear_ns (v : Z) (q : rf_qos) : rf_qos :=
  RfQosState (target_hz q) (delay_max_ns q) (delay_slope_shift q)
             (time_set_ns q) v (active_count q).

Definition set_active_count (v : Z) (q : rf_qos) : rf_qos :=
  RfQosState (target_hz q) (delay_max_ns q) (delay_slope_shift q)
             (time_set_ns q) (time_clear_ns q) v.

Section Code.
Context {K : Kernel}.

(** [pm_qos_update_request(&gt->rf_qos.req, new_value)]; the parameter
    is an [s32]. *)
Definition pm_qos_update_request (new_value : Z) : M rf_qos unit :=
  emit (QosUpdateRequest (to_s32 new_value)).

(** [static int32_t time_to_rf_qos_update_ns(struct intel_gt *gt)]. *)
Definition time_to_rf_qos_update_ns : M rf_qos Z :=
  t1 <- ktime_get_ns ;;
  dt1 <- read (fun gt => to_u64 (delay_max_ns gt)) ;;
  c <- atomic_read_acquire active_count ;;
  if negb (c =? 0) then
    v <- atomic64_read time_set_ns ;;
    let t0 := to_u64 v in
    ret (to_s32 (min_u64 dt1 (if t0 <=? t1 then 0 else to_u64 (t0 - t1))))
  else
    v <- atomic64_read time_clear_ns ;;
    let t0 := to_u64 v in
    shift <- read delay_slope_shift ;;
    ret (neg_s32 (to_s32
           (if t1 <=? t0 then 1
            else min_u64 dt1 (shl_u64 (to_u64 (t1 - t0)) shift)))).

(** [static void intel_gt_rf_qos_update(struct intel_gt *gt)]. *)
Definition intel_gt_rf_qos_update : M rf_qos unit :=
  r <- time_to_rf_qos_update_ns ;;
  let dt := to_u32 (max_s32 0 r) in
  j <- jiffies ;;
  timer_reduce (to_ulong (j + to_ulong (nsecs_to_jiffies dt))).

(** [static void intel_gt_rf_qos_timeout(struct timer_list *timer)]. *)
Definition intel_gt_rf_qos_timeout : M rf_qos unit :=
  dt <- time_to_rf_qos_update_ns ;;
  (if dt =? 0 then
     hz <- read target_hz ;;
     pm_qos_update_request hz
   else
     pm_qos_update_request PM_QOS_DEFAULT_VALUE) ;;;
  if dt >? 0 then intel_gt_rf_qos_update else ret tt.

(** [void intel_gt_pm_active_begin(struct intel_gt *gt)]. *)
Definition intel_gt_pm_active_begin : M rf_qos unit :=
  r <- time_to_rf_qos_update_ns ;;
  let dt := to_u32 (abs_s32 r) in
  now <- ktime_get_ns ;;
  atomic64_set set_time_set_ns (to_u64 (now + dt)) ;;;
  old <- atomic_fetch_inc_release active_count set_active_count ;;
  if old =? 0 then intel_gt_rf_qos_update else ret tt.

(** [void intel_gt_pm_active_end(struct intel_gt *gt)]. *)
Definition intel_gt_pm_active_end : M rf_qos unit :=
  r <- time_to_rf_qos_update_ns ;;
  let dt := to_u32 (abs_s32 r) in
  shift <- read delay_slope_shift ;;
  now <- ktime_get_ns ;;
  atomic64_set set_time_clear_ns (to_u64 (now - shr_u32 dt shift)) ;;;
  new <- atomic_dec_return_release active_count set_active_count ;;
  if new =? 0 then intel_gt_rf_qos_update else ret tt.

End Code.
End RfQos.

(** ** Observations on worlds and traces *)

(** The value the next [ktime_get_ns()] returns. *)
Definition now {K : Kernel} {Q} (w : world Q) : Z := to_u64 (ktime_at (tick w)).

(** The [k]-th clock reading since boot, as [ktime_get_ns()] returns it. *)
Definition now_at {K : Kernel} (k : nat) : Z := to_u64 (ktime_at k).

(** The world after one read of a clock. *)
Definition clock_read {Q} (w : world Q) : world Q :=
  World (dev w) (timer w) (S (tick w)) (trace w).

(** The values of the QoS requests in a trace, most recent first. *)
Fixpoint qos_requests (tr : list event) : list Z :=
  match tr with
  | [] => []
  | QosUpdateRequest v :: tr' => v :: qos_requests tr'
  | TimerReduce _ :: tr' => qos_requests tr'
  end.

(** The deadlines passed to [timer_reduce] in a trace, most recent first. *)
Fixpoint timer_requests (tr : list event) : list Z :=
  match tr with
  | [] => []
  | QosUpdateRequest _ :: tr' => timer_requests tr'
  | TimerReduce d :: tr' => d :: timer_requests tr'
  end.


(** The deadline [intel_qos_update] asks for when it runs in [w]:
    [jiffies + nsecs_to_jiffies(max(0, time_to_sf_qos_update_ns(qos)))]. *)
Definition requested_deadline {K : Kernel} (w : world SfQos.intel_qos) : Z :=
  let dt := Z.max 0 (result SfQos.time_to_sf_qos_update_ns w) in
  to_ulong (to_ulong (jiffies_at (S (tick w)))
            + to_ulong (nsecs_to_jiffies dt)).

(** The world [intel_qos_timeout] leaves once it has issued [value]. *)
Definition after_request (value : Z) (w : world SfQos.intel_qos)
  : world SfQos.intel_qos :=
  World (dev w) (timer w) (S (tick w)) (QosUpdateRequest value :: trace w).

(** The world [intel_qos_overload_begin] leaves once it has stored the
    timestamp and bumped the counter. *)
Definition after_begin_stores {K : Kernel} (w : world SfQos.intel_qos)
  : world SfQos.intel_qos :=
  let r := result SfQos.time_to_sf_qos_update_ns w in
  World (SfQos.set_active_count (to_s32 (SfQos.active_count (dev w) + 1))
           (SfQos.set_time_set_ns
              (to_s64 (now_at (S (tick w)) + Z.abs r)) (dev w)))
        (timer w) (S (S (tick w))) (trace w).

(** The world [intel_qos_overload_end] leaves once it has stored the
    timestamp and dropped the counter. *)
Definition after_end_stores {K : Kernel} (w : world SfQos.intel_qos)
  : world SfQos.intel_qos :=
  let r := result SfQos.time_to_sf_qos_update_ns w in
  World (SfQos.set_active_count (to_s32 (SfQos.active_count (dev w) - 1))
           (SfQos.set_time_clear_ns
              (to_s64 (now_at (S (tick w))
                       - Z.shiftr (Z.abs r) (SfQos.delay_slope_shift (dev w))))
              (dev w)))
        (timer w) (S (S (tick w))) (trace w).




(** ** A concrete kernel for examples: HZ = 250, the default value is -1,
    and jiffies run off the same clock as ktime. *)

Definition minus_one_is_int : is_s32 (-1).
Proof. unfold is_s32. lia. Defined.

Definition sim_kernel (clk : nat -> Z) : Kernel := {|
  ktime_at := clk;
  jiffies_at := fun k => clk k / 4000000;
  nsecs_to_jiffies := fun ns => ns / 4000000;
  PM_QOS_DEFAULT_VALUE := -1;
  PM_QOS_DEFAULT_VALUE_int := minus_one_is_int
|}.

(** ** The two copies side by side *)

(** The two structs hold the same configuration and the same atomics. *)
Definition same_qos (gt : RfQos.rf_qos) (qos : SfQos.intel_qos) : Prop :=
  RfQos.target_hz gt = SfQos.target_hz qos /\
  RfQos.delay_max_ns gt = SfQos.delay_max_ns qos /\
  RfQos.delay_slope_shift gt = SfQos.delay_slope_shift qos /\
  RfQos.time_set_ns gt = SfQos.time_set_ns qos /\
  RfQos.time_clear_ns gt = SfQos.time_clear_ns qos /\
  RfQos.active_count gt = SfQos.active_count qos.

Definition same_world (wg : world RfQos.rf_qos) (wq : world SfQos.intel_qos)
  : Prop :=
  same_qos (dev wg) (dev wq) /\ timer wg = timer wq /\
  tick wg = tick wq /\ trace wg = trace wq.

(** The [intel_gt] view of a [struct intel_qos]: the same fields, [debug]
    dropped. *)
Definition rf_of (qos : SfQos.intel_qos) : RfQos.rf_qos :=
  RfQos.RfQosState (SfQos.target_hz qos) (SfQos.delay_max_ns qos)
                   (SfQos.delay_slope_shift qos) (SfQos.time_set_ns qos)
                   (SfQos.time_clear_ns qos) (SfQos.active_count qos).

Definition rf_world (wq : world SfQos.intel_qos) : world RfQos.rf_qos :=
  World (rf_of (dev wq)) (timer wq) (tick wq) (trace wq).

(** An [intel_qos] with the fields of the [intel_gt] struct. *)
Definition sf_of (gt : RfQos.rf_qos) : SfQos.intel_qos :=
  SfQos.IntelQos (RfQos.target_hz gt) (RfQos.delay_max_ns gt)
                 (RfQos.delay_slope_shift gt) 0 (RfQos.time_set_ns gt)
                 (RfQos.time_clear_ns gt) (RfQos.active_count gt).

Definition sf_world (wg : world RfQos.rf_qos) : world SfQos.intel_qos :=
  World (sf_of (dev wg)) (timer wg) (tick wg) (trace wg).

(** [mg] run on the [intel_gt] view does what [mq] does on the
    [intel_qos]: the same result, the same calls out, the same state. *)
Definition simulates {A} (mg : M RfQos.rf_qos A) (mq : M SfQos.intel_qos A)
  : Prop :=
  forall wq, mg (rf_world wq) = (fst (mq wq), rf_world (snd (mq wq))).

(** ** Example worlds *)

(** A clock that advances by 100 ns between two reads, from 1 ms on. *)
Definition demo_clock (k : nat) : Z := 1000000 + 100 * Z.of_nat k.

Definition demo_kernel : Kernel := sim_kernel demo_clock.

(** The configuration [intel_qos_init] installs, with the given atomics. *)
Definition demo_qos (time_set time_clear count : Z) : SfQos.intel_qos :=
  SfQos.IntelQos 2 10000000 1 0 time_set time_clear count.

(** The same atomics under an arbitrary clamp and slope. *)
Definition tuned_qos (delay_max shift time_set time_clear count : Z)
  : SfQos.intel_qos :=
  SfQos.IntelQos 2 delay_max shift 0 time_set time_clear count.

(** A world in which no clock has been read, no timer is pending and
    nothing has been requested yet. *)
Definition fresh_world {Q} (q : Q) : world Q := World q None 0%nat [].

(** An active controller with 4 us left on [demo_clock]. *)
Definition active_world : world SfQos.intel_qos :=
  fresh_world (demo_qos 1004000 0 1).

(** A controller that went idle 1 us before the first reading of
    [demo_clock]. *)
Definition idle_world : world SfQos.intel_qos :=
  fresh_world (demo_qos 0 999000 0).

(** The controller as [intel_qos_init] leaves a zeroed struct. *)
Definition boot_world : world SfQos.intel_qos :=
  fresh_world (demo_qos 0 0 0).


(** A slope of 2^40 and 2^24 ns (16.8 ms) of idle time. *)
Definition steep_kernel : Kernel := sim_kernel (fun _ => 16777216).
Definition steep_idle_world : world SfQos.intel_qos :=
  fresh_world (tuned_qos 10000000 40 0 0 0).

(** A clamp of zero, idle since the very reading of the clock. *)
Definition zero_clamp_world : world SfQos.intel_qos :=
  fresh_world (tuned_qos 0 0 0 1000000 0).

(** A long overload period followed by a short one.  The clock advances by
    1 us per read and jumps by 19 ms after the fourth read. *)
Definition history_clock (k : nat) : Z :=
  if (k <? 4)%nat then 1000000 + 1000 * Z.of_nat k
  else 20000000 + 1000 * Z.of_nat k.
Definition history_kernel : Kernel := sim_kernel history_clock.
Definition history : list SfQos.call :=
  [SfQos.OverloadBegin; SfQos.TimerFires; SfQos.OverloadEnd;
   SfQos.TimerFires].

(** The scenario of a sustained overload: the clock reads 1 s during the
    begin, 250 us more when the timer fires and during the end, and
    another 250 us more when the timer fires again. *)
Definition scenario_clock (k : nat) : Z :=
  if (k <? 4)%nat then 1000000000
  else if (k <? 9)%nat then 1000250000 else 1000500000.
Definition scenario_kernel : Kernel := sim_kernel scenario_clock.

Definition decayed_world : world SfQos.intel_qos :=
  fresh_world (tuned_qos 250000 0 0 0 0).

(** ** Sequences of calls *)

Definition is_begin (c : SfQos.call) : bool :=
  match c with SfQos.OverloadBegin => true | _ => false end.

Definition is_end (c : SfQos.call) : bool :=
  match c with SfQos.OverloadEnd => true | _ => false end.

Definition is_fire (c : SfQos.call) : bool :=
  match c with SfQos.TimerFires => true | _ => false end.

Definition count_calls (p : SfQos.call -> bool) (cs : list SfQos.call)
  : nat :=
  length (filter p cs).

(** The configuration part of the struct. *)
Definition configuration (q : SfQos.intel_qos) : Z * Z * Z * Z :=
  (SfQos.target_hz q, SfQos.delay_max_ns q, SfQos.delay_slope_shift q,
   SfQos.debug q).



(** ** intel_gt_pm.c: parking, sanitizing and resuming the GT *)

Module GtPm.

(** What the code asks of the device through macros and fields declared
    outside this tree. *)
Record i915_info : Type := {
  INTEL_GEN : Z;
  NEEDS_RC6_CTX_CORRUPTION_WA : bool;
  gpu_reset_clobbers_display : bool
}.

Inductive notification : Type := INTEL_GT_UNPARK | INTEL_GT_PARK.

(** An engine as this file uses it: [kernel_context] may be NULL, [serial]
    is an [unsigned long], and [resume] stands for what
    [engine->resume(engine)] returns. *)
Record engine : Type := Engine {
  id : Z;
  kernel_context : option Z;
  serial : Z;
  resume : Z
}.

(** The calls into the rest of the driver. *)
Inductive call_out : Type :=
| display_power_get             (* intel_display_power_get(.., GT_IRQ) *)
| display_power_put (wakeref : Z)
| uncore_forcewake_get          (* FORCEWAKE_ALL *)
| uncore_forcewake_put
| enable_gt_powersave
| update_gfx_val
| gen6_rps_busy
| gen6_rps_idle
| pmu_gt_unparked
| pmu_gt_parked
| gt_queue_hangcheck
| notifier_call_chain (state : notification)
| rc6_ctx_wa_check
| synchronize_irq
| uc_sanitize
| gt_reset_all_engines          (* __intel_gt_reset(gt, ALL_ENGINES) *)
| engine_reset (engine_id : Z)  (* __intel_engine_reset(engine, false) *)
| gt_pm_get
| gt_pm_put
| engine_pm_get (engine_id : Z)
| engine_pm_put (engine_id : Z)
| context_reset (ce : Z)        (* ce->ops->reset(ce) *)
| engine_resume (engine_id : Z)
| dev_err (engine_id : Z) (err : Z).

(** [struct intel_gt] as far as this file goes; [calls] has the most
    recent call first. *)
Record intel_gt : Type := Gt {
  i915 : i915_info;
  awake : Z;
  engines : list engine;
  calls : list call_out
}.

(** What the callees return and how the driver is built.  The [k] of an
    oracle is the number of calls made so far. *)
Class Driver : Type := {
  intel_display_power_get_at : nat -> Z;
  intel_gt_reset_at : nat -> Z;
  CONFIG_DRM_I915_DEBUG_GEM : bool
}.

(** State and trace, with [None] for a [BUG()]. *)
Definition G (A : Type) : Type := intel_gt -> option (A * intel_gt).

Definition gret {A} (a : A) : G A := fun gt => Some (a, gt).

Definition gbind {A B} (m : G A) (k : A -> G B) : G B :=
  fun gt => match m gt with
            | Some (a, gt') => k a gt'
            | None => None
            end.

Declare Scope gt_scope.
Delimit Scope gt_scope with gt.
Notation "x <- m ;; k" := (gbind m (fun x => k))
  (at level 61, m at next level, right associativity) : gt_scope.
Notation "m ;;; k" := (gbind m (fun _ => k))
  (at level 61, right associativity) : gt_scope.
Local Open Scope gt_scope.

Definition call (c : call_out) : G unit :=
  fun gt => Some (tt, Gt (i915 gt) (awake gt) (engines gt) (c :: calls gt)).

Definition get {A} (f : intel_gt -> A) : G A := fun gt => Some (f gt, gt).

Definition set_awake (v : Z) : G unit :=
  fun gt => Some (tt, Gt (i915 gt) v (engines gt) (calls gt)).

Definition set_engines (es : list engine) : G unit :=
  fun gt => Some (tt, Gt (i915 gt) (awake gt) es (calls gt)).

Section Code.
Context {D : Driver}.

(** [GEM_BUG_ON(cond)]: a [BUG()] in a debug build, nothing otherwise. *)
Definition GEM_BUG_ON (cond : bool) : G unit :=
  fun gt => if CONFIG_DRM_I915_DEBUG_GEM && cond then None
            else Some (tt, gt).

(** [intel_display_power_get(i915, POWER_DOMAIN_GT_IRQ)]. *)
Definition intel_display_power_get : G Z :=
  k <- get (fun gt => length (calls gt)) ;;
  call display_power_get ;;;
  gret (intel_display_power_get_at k).

(** [__intel_gt_reset(gt, ALL_ENGINES)]. *)
Definition __intel_gt_reset : G Z :=
  k <- get (fun gt => length (calls gt)) ;;
  call gt_reset_all_engines ;;;
  gret (intel_gt_reset_at k).

(** [fetch_and_zero(&i915->gt.awake)]. *)
Definition fetch_and_zero_awake : G Z :=
  v <- get awake ;;
  set_awake 0 ;;;
  gret v.

(** [static void pm_notify(struct drm_i915_private *i915, int state)]. *)
Definition pm_notify (state : notification) : G unit :=
  call (notifier_call_chain state).

(** [static int __gt_unpark(struct intel_wakeref *wf)]. *)
Definition __gt_unpark : G Z :=
  h <- intel_display_power_get ;;
  set_awake h ;;;
  a <- get awake ;;
  GEM_BUG_ON (a =? 0) ;;;
  info <- get i915 ;;
  (if NEEDS_RC6_CTX_CORRUPTION_WA info then call uncore_forcewake_get
   else gret tt) ;;;
  call enable_gt_powersave ;;;
  call update_gfx_val ;;;
  (if INTEL_GEN info >=? 6 then call gen6_rps_busy else gret tt) ;;;
  call pmu_gt_unparked ;;;
  call gt_queue_hangcheck ;;;
  pm_notify INTEL_GT_UNPARK ;;;
  gret 0.

(** [static int __gt_park(struct intel_wakeref *wf)]. *)
Definition __gt_park : G Z :=
  wakeref <- fetch_and_zero_awake ;;
  pm_notify INTEL_GT_PARK ;;;
  call pmu_gt_parked ;;;
  info <- get i915 ;;
  (if INTEL_GEN info >=? 6 then call gen6_rps_idle else gret tt) ;;;
  (if NEEDS_RC6_CTX_CORRUPTION_WA info then
     call rc6_ctx_wa_check ;;;
     call uncore_forcewake_put
   else gret tt) ;;;
  call synchronize_irq ;;;
  GEM_BUG_ON (wakeref =? 0) ;;;
  call (display_power_put wakeref) ;;;
  gret 0.

(** [static bool reset_engines(struct intel_gt *gt)]. *)
Definition reset_engines : G bool :=
  info <- get i915 ;;
  if gpu_reset_clobbers_display info then gret false
  else
    r <- __intel_gt_reset ;;
    gret (r =? 0).

(** The body of [for_each_engine] in [intel_gt_sanitize]. *)
Fixpoint sanitize_each (es : list engine) : G unit :=
  match es with
  | [] => gret tt
  | engine :: rest => call (engine_reset (id engine)) ;;; sanitize_each rest
  end.

(** [void intel_gt_sanitize(struct intel_gt *gt, bool force)]. *)
Definition intel_gt_sanitize (force : bool) : G unit :=
  call uc_sanitize ;;;
  ok <- reset_engines ;;
  if negb ok && negb force then gret tt
  else
    es <- get engines ;;
    sanitize_each es.

(** The loop of [intel_gt_resume]: the value [err] ends with and the
    engines as the loop leaves them. *)
Fixpoint resume_each (es : list engine) : G (Z * list engine) :=
  match es with
  | [] => gret (0, [])
  | engine :: rest =>
      call (engine_pm_get (id engine)) ;;;
      (match kernel_context engine with
       | Some ce => call (context_reset ce)
       | None => gret tt
       end) ;;;
      let engine' := Engine (id engine) (kernel_context engine)
                            (to_ulong (serial engine + 1)) (resume engine) in
      call (engine_resume (id engine)) ;;;
      let err := resume engine in
      call (engine_pm_put (id engine)) ;;;
      if negb (err =? 0) then
        call (dev_err (id engine) err) ;;;
        gret (err, engine' :: rest)
      else
        r <- resume_each rest ;;
        gret (fst r, engine' :: snd r)
  end.

(** [int intel_gt_resume(struct intel_gt *gt)]. *)
Definition intel_gt_resume : G Z :=
  call gt_pm_get ;;;
  es <- get engines ;;
  r <- resume_each es ;;
  set_engines (snd r) ;;;
  call gt_pm_put ;;;
  gret (fst r).

End Code.
End GtPm.

(** ** virtgpu_prime.c: exporting a buffer and asking for its UUID *)

Module VirtGpu.

(** The three states of [bo->uuid_state] this file names. *)
Inductive uuid_state_t : Type :=
| UUID_INITIALIZING
| UUID_INITIALIZED
| UUID_INITIALIZATION_FAILED.

(** [struct virtio_gpu_object] as far as this file goes; a [uuid_t] is 16
    bytes, kept as a number. *)
Record virtio_gpu_object : Type := Bo {
  uuid_state : uuid_state_t;
  uuid : Z
}.

Record virtio_gpu_device : Type := {
  has_resource_assign_uuid : bool
}.

(** A pointer result: a valid pointer or [ERR_PTR(err)]. *)
Inductive pointer (A : Type) : Type :=
| Ptr (a : A)
| ERR_PTR (err : Z).
Arguments Ptr {A}.
Arguments ERR_PTR {A}.

(** The calls into virtio-gpu and DRM. *)
Inductive call_out : Type :=
| cmd_resource_assign_uuid
| gem_prime_export (flags : Z).

(** The errno constant and the two callees, none of them in this tree:
    what [virtio_gpu_cmd_resource_assign_uuid] returns and how it leaves
    the object, and what [drm_gem_prime_export] returns. *)
Class Env : Type := {
  ENODEV : Z;
  ENODEV_positive : 0 < ENODEV;
  virtio_gpu_cmd_resource_assign_uuid :
    virtio_gpu_object -> Z * virtio_gpu_object;
  drm_gem_prime_export : virtio_gpu_object -> Z -> pointer Z
}.

Section Code.
Context {E : Env}.

(** [int virtgpu_gem_prime_get_uuid(struct drm_gem_object *obj,
    uuid_t *uuid)], given the caller's buffer.  [wait_event] returns once
    the object is no longer initializing; [None] stands for a caller that
    is still waiting. *)
Definition virtgpu_gem_prime_get_uuid (bo : virtio_gpu_object)
  (uuid_out : Z) : option (Z * Z) :=
  match uuid_state bo with
  | UUID_INITIALIZING => None
  | UUID_INITIALIZED => Some (0, uuid bo)
  | UUID_INITIALIZATION_FAILED => Some (- ENODEV, uuid_out)
  end.

(** [struct dma_buf *virtgpu_gem_prime_export(struct drm_gem_object *obj,
    int flags)]: the result, the object afterwards and the calls made, the
    most recent first. *)
Definition virtgpu_gem_prime_export (vgdev : virtio_gpu_device)
  (bo : virtio_gpu_object) (flags : Z)
  : pointer Z * virtio_gpu_object * list call_out :=
  if has_resource_assign_uuid vgdev then
    let (ret, bo') := virtio_gpu_cmd_resource_assign_uuid bo in
    if negb (ret =? 0) then (ERR_PTR ret, bo', [cmd_resource_assign_uuid])
    else (drm_gem_prime_export bo' flags, bo',
          [gem_prime_export flags; cmd_resource_assign_uuid])
  else
    let bo' := Bo UUID_INITIALIZATION_FAILED (uuid bo) in
    (drm_gem_prime_export bo' flags, bo', [gem_prime_export flags]).

(** [struct drm_gem_object *virtgpu_gem_prime_import_sg_table(...)]. *)
Definition virtgpu_gem_prime_import_sg_table : pointer Z :=
  ERR_PTR (- ENODEV).

End Code.
End VirtGpu.

(** ** Setting the controllers up *)

(** The calls [intel_qos_init] and [intel_gt_pm_init_early] make. *)
Inductive setup_call : Type :=
| wakeref_init
| notifier_head_init
| qos_add_request (value : Z)
| timer_setup.

(** [void intel_qos_init(struct intel_qos *qos)]: the world afterwards and
    the calls made, the most recent first.  [timer_setup] leaves the timer
    not pending. *)
Definition intel_qos_init {K : Kernel} (w : world SfQos.intel_qos)
  : world SfQos.intel_qos * list setup_call :=
  let q := dev w in
  (World (SfQos.IntelQos 2 10000000 1 (SfQos.debug q) (SfQos.time_set_ns q)
                         (SfQos.time_clear_ns q) (SfQos.active_count q))
         None (tick w) (trace w),
   [timer_setup; qos_add_request PM_QOS_DEFAULT_VALUE]).

(** The QoS part of [void intel_gt_pm_init_early(struct intel_gt *gt)],
    with the two initialisations that precede it. *)
Definition intel_gt_pm_init_early {K : Kernel} (w : world RfQos.rf_qos)
  : world RfQos.rf_qos * list setup_call :=
  let q := dev w in
  (World (RfQos.RfQosState 2 250000 0 (RfQos.time_set_ns q)
                           (RfQos.time_clear_ns q) (RfQos.active_count q))
         None (tick w) (trace w),
   [timer_setup; qos_add_request PM_QOS_DEFAULT_VALUE;
    notifier_head_init; wakeref_init]).

(** ** Observations on the GT and its calls *)

(** The calls that take or release the GT_IRQ display power domain. *)
Definition power_calls (cs : list GtPm.call_out) : list GtPm.call_out :=
  filter (fun c => match c with
                   | GtPm.display_power_get | GtPm.display_power_put _ => true
                   | _ => false
                   end) cs.

Definition forcewake_calls (cs : list GtPm.call_out) : list GtPm.call_out :=
  filter (fun c => match c with
                   | GtPm.uncore_forcewake_get | GtPm.uncore_forcewake_put
                     => true
                   | _ => false
                   end) cs.

Definition rps_calls (cs : list GtPm.call_out) : list GtPm.call_out :=
  filter (fun c => match c with
                   | GtPm.gen6_rps_busy | GtPm.gen6_rps_idle => true
                   | _ => false
                   end) cs.

Fixpoint notifications (cs : list GtPm.call_out) : list GtPm.notification :=
  match cs with
  | [] => []
  | GtPm.notifier_call_chain n :: cs' => n :: notifications cs'
  | _ :: cs' => notifications cs'
  end.

(** The engines that took, respectively released, a PM reference. *)
Fixpoint pm_gets (cs : list GtPm.call_out) : list Z :=
  match cs with
  | [] => []
  | GtPm.engine_pm_get e :: cs' => e :: pm_gets cs'
  | _ :: cs' => pm_gets cs'
  end.

Fixpoint pm_puts (cs : list GtPm.call_out) : list Z :=
  match cs with
  | [] => []
  | GtPm.engine_pm_put e :: cs' => e :: pm_puts cs'
  | _ :: cs' => pm_puts cs'
  end.

(** The engines whose [resume] hook was called, and the errors logged. *)
Fixpoint resumed (cs : list GtPm.call_out) : list Z :=
  match cs with
  | [] => []
  | GtPm.engine_resume e :: cs' => e :: resumed cs'
  | _ :: cs' => resumed cs'
  end.

Fixpoint errors_logged (cs : list GtPm.call_out) : list (Z * Z) :=
  match cs with
  | [] => []
  | GtPm.dev_err e err :: cs' => (e, err) :: errors_logged cs'
  | _ :: cs' => errors_logged cs'
  end.

(** The engines reset by [__intel_engine_reset]. *)
Fixpoint engine_resets (cs : list GtPm.call_out) : list Z :=
  match cs with
  | [] => []
  | GtPm.engine_reset e :: cs' => e :: engine_resets cs'
  | _ :: cs' => engine_resets cs'
  end.

(** The kernel contexts reset through [ce->ops->reset]. *)
Fixpoint context_resets (cs : list GtPm.call_out) : list Z :=
  match cs with
  | [] => []
  | GtPm.context_reset ce :: cs' => ce :: context_resets cs'
  | _ :: cs' => context_resets cs'
  end.

(** The kernel contexts of the engines that have one. *)
Definition kernel_contexts (es : list GtPm.engine) : list Z :=
  flat_map (fun e => match GtPm.kernel_context e with
                     | Some ce => [ce]
                     | None => []
                     end) es.

(** An engine after [engine->serial++]. *)
Definition bump_serial (e : GtPm.engine) : GtPm.engine :=
  GtPm.Engine (GtPm.id e) (GtPm.kernel_context e)
              (to_ulong (GtPm.serial e + 1)) (GtPm.resume e).

(** The engines up to and including the first whose resume fails, the
    engines after it, and the error of that engine (0 if none fails). *)
Fixpoint touched (es : list GtPm.engine) : list GtPm.engine :=
  match es with
  | [] => []
  | e :: rest => if GtPm.resume e =? 0 then e :: touched rest else [e]
  end.

Fixpoint untouched (es : list GtPm.engine) : list GtPm.engine :=
  match es with
  | [] => []
  | e :: rest => if GtPm.resume e =? 0 then untouched rest else rest
  end.

Fixpoint first_error (es : list GtPm.engine) : Z :=
  match es with
  | [] => 0
  | e :: rest => if GtPm.resume e =? 0 then first_error rest
                 else GtPm.resume e
  end.

(** The same GT with more calls on record. *)
Definition with_calls (gt : GtPm.intel_gt) (new : list GtPm.call_out)
  : GtPm.intel_gt :=
  GtPm.Gt (GtPm.i915 gt) (GtPm.awake gt) (GtPm.engines gt)
          (new ++ GtPm.calls gt).

(** ** Examples for the further properties *)

(** An idle controller whose timer is pending for jiffy 300. *)
Definition armed_world : world SfQos.intel_qos :=
  World (demo_qos 0 999000 0) (Some 300) 0%nat [].

(** An active controller whose deadline passed 100 us before the first
    reading of [demo_clock] and of [sat_clock]. *)
Definition overdue_world : world SfQos.intel_qos :=
  fresh_world (demo_qos 900000 0 1).



(** A debug build on which the power domain hands out wakerefs from 7 on
    and a GT reset succeeds. *)
Definition demo_driver : GtPm.Driver := {|
  GtPm.intel_display_power_get_at := fun k => 7 + Z.of_nat k;
  GtPm.intel_gt_reset_at := fun _ => 0;
  GtPm.CONFIG_DRM_I915_DEBUG_GEM := true
|}.

(** Three engines, the second without a kernel context and failing to
    resume with -5. *)
Definition demo_engines : list GtPm.engine :=
  [GtPm.Engine 0 (Some 100) 5 0; GtPm.Engine 1 None 0 (-5);
   GtPm.Engine 2 (Some 102) 9 0].

(** A parked gen-9 GT with the RC6 workaround. *)
Definition demo_gt : GtPm.intel_gt :=
  GtPm.Gt {| GtPm.INTEL_GEN := 9;
             GtPm.NEEDS_RC6_CTX_CORRUPTION_WA := true;
             GtPm.gpu_reset_clobbers_display := false |}
          0 demo_engines [].

Definition nineteen_is_positive : 0 < 19.
Proof. reflexivity. Defined.

(** ENODEV = 19; the assign command fails with -ENOMEM for an object whose
    UUID field is 0 and otherwise leaves the object initializing; the
    export hands out a pointer made of the UUID field and the flags. *)
Definition demo_env : VirtGpu.Env := {|
  VirtGpu.ENODEV := 19;
  VirtGpu.ENODEV_positive := nineteen_is_positive;
  VirtGpu.virtio_gpu_cmd_resource_assign_uuid :=
    fun bo => (if VirtGpu.uuid bo =? 0 then -12 else 0,
               VirtGpu.Bo VirtGpu.UUID_INITIALIZING (VirtGpu.uuid bo));
  VirtGpu.drm_gem_prime_export :=
    fun bo flags => VirtGpu.Ptr (VirtGpu.uuid bo + flags)
|}.

Definition plain_device : VirtGpu.virtio_gpu_device :=
  {| VirtGpu.has_resource_assign_uuid := false |}.

Definition uuid_device : VirtGpu.virtio_gpu_device :=
  {| VirtGpu.has_resource_assign_uuid := true |}.

Definition demo_bo : VirtGpu.virtio_gpu_object :=
  VirtGpu.Bo VirtGpu.UUID_INITIALIZING 5.

(** * Properties *)

(** ** Integer conversions *)

Lemma to_s32_range x : is_s32 (to_s32 x).
Proof.
  unfold is_s32, to_s32.
  pose proof (Z.mod_pos_bound (x + 2 ^ 31) (2 ^ 32)). lia.
Qed.

Lemma to_s32_id x : is_s32 x -> to_s32 x = x.
Proof.
  unfold is_s32, to_s32. intros H.
  rewrite Z.mod_small by lia. lia.
Qed.

Lemma to_s32_high x : 2 ^ 31 <= x < 2 ^ 32 -> to_s32 x = x - 2 ^ 32.
Proof.
  unfold to_s32. intros H.
  replace (x + 2 ^ 31) with (x - 2 ^ 31 + 1 * 2 ^ 32) by lia.
  rewrite Z.mod_add by lia. rewrite Z.mod_small by lia. lia.
Qed.

Lemma to_s32_nonzero x : 0 < x < 2 ^ 32 -> to_s32 x <> 0.
Proof.
  intros H. destruct (Z_lt_le_dec x (2 ^ 31)).
  - rewrite to_s32_id by (unfold is_s32; lia). lia.
  - rewrite to_s32_high by lia. lia.
Qed.

Lemma to_u32_id x : is_u32 x -> to_u32 x = x.
Proof. unfold is_u32, to_u32. intros H. now apply Z.mod_small. Qed.

Lemma to_u64_id x : is_u64 x -> to_u64 x = x.
Proof. unfold is_u64, to_u64. intros H. now apply Z.mod_small. Qed.

Lemma to_u64_range x : is_u64 (to_u64 x).
Proof. unfold is_u64, to_u64. apply Z.mod_pos_bound. lia. Qed.

Lemma to_s64_id x : is_s64 x -> to_s64 x = x.
Proof.
  unfold is_s64, to_s64. intros H.
  rewrite Z.mod_small by lia. lia.
Qed.

Lemma to_s64_range x : is_s64 (to_s64 x).
Proof.
  unfold is_s64, to_s64.
  pose proof (Z.mod_pos_bound (x + 2 ^ 63) (2 ^ 64)). lia.
Qed.

(** Storing a [u64] in an [atomic64_t] and reading it back as a [u64]
    loses nothing. *)
Lemma to_u64_to_s64 x : to_u64 (to_s64 x) = to_u64 x.
Proof.
  unfold to_u64, to_s64.
  replace ((x + 2 ^ 63) mod 2 ^ 64 - 2 ^ 63)
    with ((x + 2 ^ 63) mod 2 ^ 64 + 2 ^ 63 + (-1) * 2 ^ 64) by lia.
  rewrite Z.mod_add by lia.
  rewrite Zplus_mod_idemp_l.
  replace (x + 2 ^ 63 + 2 ^ 63) with (x + 1 * 2 ^ 64) by lia.
  now rewrite Z.mod_add by lia.
Qed.

Lemma to_s64_to_u64 x : to_s64 (to_u64 x) = to_s64 x.
Proof.
  unfold to_u64, to_s64. f_equal.
  now rewrite Zplus_mod_idemp_l.
Qed.

Lemma min_u64_min x y : min_u64 x y = Z.min x y.
Proof. unfold min_u64. destruct (Z.ltb_spec x y); lia. Qed.

Lemma max_s32_max x y : max_s32 x y = Z.max x y.
Proof. unfold max_s32. rewrite Z.gtb_ltb. destruct (Z.ltb_spec y x); lia. Qed.

(** [abs()] of an [int], stored in a [u32], is the absolute value, also at
    INT_MIN where the negation wraps. *)
Lemma to_u32_abs_s32 x : is_s32 x -> to_u32 (abs_s32 x) = Z.abs x.
Proof.
  unfold is_s32, abs_s32, neg_s32. intros H.
  destruct (Z.ltb_spec x 0).
  - destruct (Z.eq_dec x (- 2 ^ 31)) as [-> | Hne].
    + reflexivity.
    + rewrite to_s32_id by (unfold is_s32; lia).
      rewrite to_u32_id by (unfold is_u32; lia). lia.
  - rewrite to_u32_id by (unfold is_u32; lia). lia.
Qed.

(** A left shift that stays below 2^64 is a multiplication. *)
Lemma shl_u64_exact x n :
  0 <= x -> 0 <= n -> x * 2 ^ n < 2 ^ 64 -> shl_u64 x n = x * 2 ^ n.
Proof.
  intros Hx Hn Hlt. unfold shl_u64.
  rewrite Z.shiftl_mul_pow2 by assumption.
  apply to_u64_id. unfold is_u64. split; [|assumption].
  apply Z.mul_nonneg_nonneg; [assumption|]. apply Z.pow_nonneg. lia.
Qed.

(** However large the value that is clamped, and whatever the sign the
    conversion to [s32] gives it, the magnitude stays within the clamp. *)
Lemma clamp_magnitude d x :
  is_u32 d -> 0 <= x -> Z.abs (to_s32 (Z.min d x)) <= d.
Proof.
  unfold is_u32. intros Hd Hx.
  destruct (Z_lt_le_dec (Z.min d x) (2 ^ 31)).
  - rewrite to_s32_id by (unfold is_s32; lia). lia.
  - rewrite to_s32_high by lia. lia.
Qed.

Lemma abs_neg_s32 x : is_s32 x -> Z.abs (neg_s32 x) = Z.abs x.
Proof.
  unfold is_s32, neg_s32. intros H.
  destruct (Z.eq_dec x (- 2 ^ 31)) as [-> | Hne].
  - reflexivity.
  - rewrite to_s32_id by (unfold is_s32; lia). lia.
Qed.

(** ** [time_to_sf_qos_update_ns] *)

Import SfQos.

Ltac run_monad :=
  unfold result, run, atomic_fetch_inc_release, atomic_dec_return_release,
    atomic_read_acquire, atomic64_read, atomic64_set, timer_reduce,
    timer_expire, ktime_get_ns, jiffies;
  unfold bind, ret, read, modify, emit;
  cbn [fst snd dev timer tick trace].

Section TimeToUpdate.
Context {K : Kernel}.

(** The function reads the clock once and changes nothing else. *)
Lemma time_to_sf_run (w : world intel_qos) :
  run time_to_sf_qos_update_ns w = clock_read w.
Proof.
  unfold time_to_sf_qos_update_ns. run_monad.
  destruct (negb (active_count (dev w) =? 0)); reflexivity.
Qed.

Lemma time_to_sf_active (w : world intel_qos) :
  is_u32 (delay_max_ns (dev w)) ->
  active_count (dev w) <> 0 ->
  result time_to_sf_qos_update_ns w =
  to_s32 (Z.min (delay_max_ns (dev w))
                (Z.max 0 (to_u64 (time_set_ns (dev w)) - now w))).
Proof.
  intros Hd Hc. unfold time_to_sf_qos_update_ns. run_monad.
  apply Z.eqb_neq in Hc. rewrite Hc. cbn [negb fst snd dev timer tick trace].
  rewrite min_u64_min. fold (now w).
  rewrite (to_u64_id (delay_max_ns _)) by (unfold is_u32, is_u64 in *; lia).
  pose proof (to_u64_range (time_set_ns (dev w))) as R0.
  pose proof (to_u64_range (ktime_at (tick w))) as R1. fold (now w) in R1.
  unfold is_u64 in *.
  destruct (Z.leb_spec (to_u64 (time_set_ns (dev w))) (now w)).
  - f_equal. lia.
  - rewrite (to_u64_id (_ - _)) by (unfold is_u64; lia). f_equal. lia.
Qed.

Lemma time_to_sf_idle (w : world intel_qos) :
  is_u32 (delay_max_ns (dev w)) ->
  active_count (dev w) = 0 ->
  result time_to_sf_qos_update_ns w =
  neg_s32 (to_s32 (if now w <=? to_u64 (time_clear_ns (dev w)) then 1
                   else Z.min (delay_max_ns (dev w))
                              (shl_u64 (now w - to_u64 (time_clear_ns (dev w)))
                                       (delay_slope_shift (dev w))))).
Proof.
  intros Hd Hc. unfold time_to_sf_qos_update_ns. run_monad.
  rewrite Hc. cbn [Z.eqb negb fst snd dev timer tick trace].
  rewrite min_u64_min. fold (now w).
  rewrite (to_u64_id (delay_max_ns _)) by (unfold is_u32, is_u64 in *; lia).
  pose proof (to_u64_range (time_clear_ns (dev w))) as R0.
  pose proof (to_u64_range (ktime_at (tick w))) as R1. fold (now w) in R1.
  unfold is_u64 in *.
  destruct (Z.leb_spec (now w) (to_u64 (time_clear_ns (dev w)))).
  - reflexivity.
  - rewrite (to_u64_id (_ - _)) by (unfold is_u64; lia). reflexivity.
Qed.

Lemma time_to_sf_is_s32 (w : world intel_qos) :
  is_s32 (result time_to_sf_qos_update_ns w).
Proof.
  unfold time_to_sf_qos_update_ns. run_monad.
  destruct (negb (active_count (dev w) =? 0)); cbn [fst];
    [|unfold neg_s32]; apply to_s32_range.
Qed.



(** C6 (amended).  For every controller state and every clock reading the
    magnitude of the result is at most [max(1, delay_max_ns)]: it is at most
    [delay_max_ns] whenever [delay_max_ns >= 1], and for every
    [delay_max_ns] whenever the controller is active or the clock is past
    [time_clear_ns]; whatever the shift produced is clamped. *)
Theorem time_to_update_magnitude (w : world intel_qos) :
  is_u32 (delay_max_ns (dev w)) ->
  Z.abs (result time_to_sf_qos_update_ns w) <= Z.max 1 (delay_max_ns (dev w)) /\
  (1 <= delay_max_ns (dev w) ->
   Z.abs (result time_to_sf_qos_update_ns w) <= delay_max_ns (dev w)) /\
  (active_count (dev w) <> 0 \/ to_u64 (time_clear_ns (dev w)) < now w ->
   Z.abs (result time_to_sf_qos_update_ns w) <= delay_max_ns (dev w)).
Proof.
  intros Hd.
  assert (Hsharp : active_count (dev w) <> 0 \/
                   to_u64 (time_clear_ns (dev w)) < now w ->
                   Z.abs (result time_to_sf_qos_update_ns w)
                     <= delay_max_ns (dev w)).
  { intros Hcase.
    destruct (Z.eq_dec (active_count (dev w)) 0) as [Hidle | Hact].
    - destruct Hcase as [? | Hlt]; [contradiction|].
      rewrite time_to_sf_idle by assumption.
      rewrite abs_neg_s32 by apply to_s32_range.
      destruct (Z.leb_spec (now w) (to_u64 (time_clear_ns (dev w)))); [lia|].
      apply clamp_magnitude; [assumption|].
      apply to_u64_range.
    - rewrite time_to_sf_active by assumption.
      apply clamp_magnitude; [assumption | lia]. }
  assert (Hall : Z.abs (result time_to_sf_qos_update_ns w)
                   <= Z.max 1 (delay_max_ns (dev w))).
  { destruct (Z.eq_dec (active_count (dev w)) 0) as [Hidle | Hact].
    - destruct (Z_lt_le_dec (to_u64 (time_clear_ns (dev w))) (now w)).
      + specialize (Hsharp (or_intror l)). lia.
      + rewrite time_to_sf_idle by assumption.
        destruct (Z.leb_spec (now w) (to_u64 (time_clear_ns (dev w)))); [|lia].
        change (neg_s32 (to_s32 1)) with (-1). lia.
    - specialize (Hsharp (or_introl Hact)). lia. }
  split; [exact Hall|]. split; [lia | exact Hsharp].
Qed.

End TimeToUpdate.

(** ** The operations, one call at a time *)

Section Operations.
Context {K : Kernel}.

Lemma time_to_sf_pair (w : world intel_qos) :
  time_to_sf_qos_update_ns w =
  (result time_to_sf_qos_update_ns w, clock_read w).
Proof.
  rewrite <- time_to_sf_run. unfold result, run.
  now destruct (time_to_sf_qos_update_ns w).
Qed.

Lemma result_clock_read_irrelevant (q : intel_qos) t k tr t' tr' :
  result time_to_sf_qos_update_ns (World q t k tr) =
  result time_to_sf_qos_update_ns (World q t' k tr').
Proof.
  unfold time_to_sf_qos_update_ns. run_monad.
  destruct (negb (active_count q =? 0)); reflexivity.
Qed.

Lemma intel_qos_update_run (w : world intel_qos) :
  run intel_qos_update w =
  World (dev w) (reduce_to (timer w) (requested_deadline w))
        (S (S (tick w))) (TimerReduce (requested_deadline w) :: trace w).
Proof.
  unfold intel_qos_update, run, bind, requested_deadline.
  rewrite time_to_sf_pair.
  generalize (time_to_sf_is_s32 w).
  generalize (result time_to_sf_qos_update_ns w). intros r R.
  run_monad. unfold clock_read. cbn [fst snd dev timer tick trace].
  unfold is_s32 in R. rewrite max_s32_max.
  rewrite (to_u32_id (Z.max 0 r)) by (unfold is_u32; lia).
  reflexivity.
Qed.

Lemma intel_qos_timeout_run (w : world intel_qos) :
  run intel_qos_timeout w =
  let dt := result time_to_sf_qos_update_ns w in
  let w1 := after_request (if dt =? 0 then to_s32 (target_hz (dev w))
                           else PM_QOS_DEFAULT_VALUE) w in
  if 0 <? dt then run intel_qos_update w1 else w1.
Proof.
  unfold intel_qos_timeout, run at 1, bind. rewrite time_to_sf_pair.
  cbv zeta. rewrite Z.gtb_ltb.
  generalize (result time_to_sf_qos_update_ns w). intros r.
  unfold cpu_scaling_response_qos_update_request, after_request.
  destruct (r =? 0); unfold ret, read, emit, clock_read;
    cbn [fst snd dev timer tick trace];
    destruct (0 <? r); reflexivity.
Qed.

Lemma intel_qos_overload_begin_run (w : world intel_qos) :
  run intel_qos_overload_begin w =
  if active_count (dev w) =? 0
  then run intel_qos_update (after_begin_stores w)
  else after_begin_stores w.
Proof.
  unfold intel_qos_overload_begin, run at 1, bind, after_begin_stores.
  rewrite time_to_sf_pair.
  rewrite (to_u32_abs_s32 _ (time_to_sf_is_s32 w)).
  generalize (result time_to_sf_qos_update_ns w). intros r.
  unfold atomic_fetch_inc_release, atomic64_set, ktime_get_ns, bind, ret,
    read, modify, clock_read, now_at.
  cbn [fst snd dev timer tick trace active_count set_time_set_ns].
  rewrite to_s64_to_u64.
  destruct (active_count (dev w) =? 0); reflexivity.
Qed.

Lemma intel_qos_overload_end_run (w : world intel_qos) :
  run intel_qos_overload_end w =
  if to_s32 (active_count (dev w) - 1) =? 0
  then run intel_qos_update (after_end_stores w)
  else after_end_stores w.
Proof.
  unfold intel_qos_overload_end, run at 1, bind, after_end_stores.
  rewrite time_to_sf_pair.
  rewrite (to_u32_abs_s32 _ (time_to_sf_is_s32 w)).
  generalize (result time_to_sf_qos_update_ns w). intros r.
  unfold atomic_dec_return_release, atomic64_set, ktime_get_ns, bind, ret,
    read, modify, clock_read, now_at, shr_u32.
  cbn [fst snd dev timer tick trace active_count delay_slope_shift
       set_time_clear_ns].
  rewrite to_s64_to_u64.
  destruct (to_s32 (active_count (dev w) - 1) =? 0); reflexivity.
Qed.

Lemma intel_qos_update_dev (w : world intel_qos) :
  dev (run intel_qos_update w) = dev w.
Proof. now rewrite intel_qos_update_run. Qed.

(** C3.  [intel_qos_timeout] recomputes [dt] and issues exactly one QoS
    request: [target_hz] (as the [s32] the request takes) when [dt == 0],
    [PM_QOS_DEFAULT_VALUE] otherwise; it then calls [intel_qos_update]
    when [dt > 0] and does nothing more when [dt <= 0], so that exactly one
    [timer_reduce] is made if and only if [dt > 0]. *)
Theorem timeout_request_and_rearm (w : world intel_qos) :
  let dt := result time_to_sf_qos_update_ns w in
  let value := if dt =? 0 then to_s32 (target_hz (dev w))
               else PM_QOS_DEFAULT_VALUE in
  let w' := run intel_qos_timeout w in
  qos_requests (trace w') = value :: qos_requests (trace w) /\
  (0 < dt -> w' = run intel_qos_update (after_request value w)) /\
  (dt <= 0 -> w' = after_request value w) /\
  timer_requests (trace w') =
    (if 0 <? dt then [requested_deadline (after_request value w)] else [])
    ++ timer_requests (trace w).
Proof.
  intros dt value w'. subst w'. rewrite intel_qos_timeout_run.
  fold dt. fold value. cbv zeta.
  destruct (Z.ltb_spec 0 dt) as [Hpos | Hnpos].
  - split; [|split; [|split]].
    + rewrite intel_qos_update_run. reflexivity.
    + reflexivity.
    + lia.
    + rewrite intel_qos_update_run. reflexivity.
  - split; [|split; [|split]].
    + reflexivity.
    + lia.
    + reflexivity.
    + reflexivity.
Qed.

(** C4.  [intel_qos_overload_begin] stores [now + |dt|] in [time_set_ns],
    where [dt] is what [time_to_sf_qos_update_ns] returned before the store
    and [now] is the clock reading that follows it (the sum is a 64-bit
    one, exact below 2^63); it then increments [active_count] (an [int]);
    it calls [intel_qos_update] when the value before the increment was 0,
    and otherwise leaves the timer and the trace as they were. *)
Theorem overload_begin_effect (w : world intel_qos) :
  let r := result time_to_sf_qos_update_ns w in
  let now2 := now_at (S (tick w)) in
  let c := active_count (dev w) in
  let w' := run intel_qos_overload_begin w in
  time_set_ns (dev w') = to_s64 (now2 + Z.abs r) /\
  (now2 + Z.abs r < 2 ^ 63 -> time_set_ns (dev w') = now2 + Z.abs r) /\
  active_count (dev w') = to_s32 (c + 1) /\
  (is_s32 c -> c < INT32_MAX -> active_count (dev w') = c + 1) /\
  (c = 0 -> w' = run intel_qos_update (after_begin_stores w)) /\
  (c <> 0 -> w' = after_begin_stores w /\
             timer w' = timer w /\ trace w' = trace w).
Proof.
  intros r now2 c w'.
  assert (Hdev : dev w' = dev (after_begin_stores w)).
  { subst w'. rewrite intel_qos_overload_begin_run.
    destruct (active_count (dev w) =? 0);
      [apply intel_qos_update_dev | reflexivity]. }
  assert (Hcalls :
            (c = 0 -> w' = run intel_qos_update (after_begin_stores w)) /\
            (c <> 0 -> w' = after_begin_stores w /\
                       timer w' = timer w /\ trace w' = trace w)).
  { subst w' c. rewrite intel_qos_overload_begin_run.
    destruct (Z.eqb_spec (active_count (dev w)) 0) as [Heq | Hne].
    - split; [reflexivity | contradiction].
    - split; [contradiction | repeat split; reflexivity]. }
  rewrite Hdev. unfold after_begin_stores.
  cbn [dev time_set_ns active_count set_active_count set_time_set_ns].
  fold r. fold now2. fold c.
  split; [reflexivity|]. split.
  { intros Hfit. apply to_s64_id.
    pose proof (to_u64_range (ktime_at (S (tick w)))) as R.
    fold (now_at (S (tick w))) in R. fold now2 in R.
    unfold is_u64, is_s64 in *. lia. }
  split; [reflexivity|]. split.
  { unfold is_s32, INT32_MAX. intros Hc Hmax.
    apply to_s32_id. unfold is_s32. lia. }
  exact Hcalls.
Qed.


(** C9 (amended).  The code does not detect an [intel_qos_overload_end]
    without a matching begin: from [active_count == 0] the decrement stores
    -1, nothing is flagged or requested, [intel_qos_update] is not called,
    and from then on [time_to_sf_qos_update_ns] takes the branch of an
    active controller. *)
Theorem unmatched_end_counts_below_zero (w : world intel_qos) :
  let w' := run intel_qos_overload_end w in
  active_count (dev w) = 0 ->
  active_count (dev w') = -1 /\
  debug (dev w') = debug (dev w) /\
  trace w' = trace w /\
  timer w' = timer w /\
  (is_u32 (delay_max_ns (dev w)) ->
   forall t k tr,
     result time_to_sf_qos_update_ns (World (dev w') t k tr) =
     to_s32 (Z.min (delay_max_ns (dev w))
                   (Z.max 0 (to_u64 (time_set_ns (dev w)) - now_at k)))).
Proof.
  intros w' Hc. subst w'. rewrite intel_qos_overload_end_run, Hc.
  change (to_s32 (0 - 1) =? 0) with false. cbv iota.
  unfold after_end_stores.
  cbn [dev timer trace active_count debug set_active_count
       set_time_clear_ns].
  rewrite Hc. change (to_s32 (0 - 1)) with (-1).
  repeat split; try reflexivity.
  intros Hd t k tr.
  now rewrite time_to_sf_active.
Qed.

End Operations.

(** ** Executions and the pending timer *)

Section Executions.
Context {K : Kernel}.

Lemma run_exec_cons (c : call) (cs : list call) (w : world intel_qos) :
  run (exec (c :: cs)) w = run (exec cs) (run (step c) w).
Proof.
  unfold run. cbn [exec]. unfold bind.
  now destruct (step c w).
Qed.


Lemma run_timer_fires (w : world intel_qos) :
  run timer_fires w =
  run intel_qos_timeout (World (dev w) None (tick w) (trace w)).
Proof. reflexivity. Qed.








End Executions.

(** ** Short bursts *)

Section Bursts.
Context {K : Kernel}.

Lemma result_time_to_world (w : world intel_qos) t tr :
  result time_to_sf_qos_update_ns (World (dev w) t (tick w) tr) =
  result time_to_sf_qos_update_ns w.
Proof. destruct w. apply result_clock_read_irrelevant. Qed.




Lemma timer_fires_effect (w : world intel_qos) :
  let w' := run timer_fires w in
  dev w' = dev w /\
  (tick w < tick w')%nat /\
  qos_requests (trace w') =
    (if result time_to_sf_qos_update_ns w =? 0
     then to_s32 (target_hz (dev w)) else PM_QOS_DEFAULT_VALUE)
    :: qos_requests (trace w).
Proof.
  cbv zeta. rewrite run_timer_fires, intel_qos_timeout_run.
  cbv zeta. cbn [dev]. rewrite result_time_to_world.
  destruct (0 <? result time_to_sf_qos_update_ns w).
  - rewrite intel_qos_update_run. unfold after_request.
    cbn [dev tick trace qos_requests]. repeat split. lia.
  - unfold after_request. cbn [dev tick trace qos_requests].
    repeat split. lia.
Qed.








End Bursts.

(** ** The two copies agree *)

Section TwoCopies.
Context {K : Kernel}.

Lemma same_world_rf_world wg (wq : world intel_qos) :
  same_world wg wq <-> wg = rf_world wq.
Proof.
  unfold same_world, same_qos, rf_world, rf_of. split.
  - destruct wg as [[hz dmax sh ts tc ac] t k tr].
    cbn [dev timer tick trace RfQos.target_hz RfQos.delay_max_ns
         RfQos.delay_slope_shift RfQos.time_set_ns RfQos.time_clear_ns
         RfQos.active_count].
    intros ((-> & -> & -> & -> & -> & ->) & -> & -> & ->). reflexivity.
  - intros ->. cbn. repeat split.
Qed.

(** Every state of the [intel_gt] copy has a counterpart. *)
Lemma same_world_sf_world (wg : world RfQos.rf_qos) :
  same_world wg (sf_world wg).
Proof. destruct wg as [[] ? ? ?]. repeat split. Qed.

Lemma sim_ret {A} (a : A) : simulates (ret a) (ret a).
Proof. intros wq. reflexivity. Qed.

Lemma sim_bind {A B} mg mq (kg : A -> M _ B) kq :
  simulates mg mq -> (forall a, simulates (kg a) (kq a)) ->
  simulates (bind mg kg) (bind mq kq).
Proof.
  intros Hm Hk wq. unfold bind. rewrite Hm.
  destruct (mq wq) as [a w1]. cbn [fst snd]. apply Hk.
Qed.

Lemma sim_read getg getq :
  (forall q, getg (rf_of q) = getq q) -> simulates (read getg) (read getq).
Proof. intros H wq. unfold read. cbn. now rewrite H. Qed.

Lemma sim_modify fg fq :
  (forall q, fg (rf_of q) = rf_of (fq q)) ->
  simulates (modify fg) (modify fq).
Proof. intros H wq. unfold modify, rf_world. cbn. now rewrite H. Qed.

Lemma sim_emit e : simulates (emit e) (emit e).
Proof. intros wq. reflexivity. Qed.

Lemma sim_ktime_get_ns : simulates ktime_get_ns ktime_get_ns.
Proof. intros wq. reflexivity. Qed.

Lemma sim_jiffies : simulates jiffies jiffies.
Proof. intros wq. reflexivity. Qed.

Lemma sim_timer_reduce d : simulates (timer_reduce d) (timer_reduce d).
Proof. intros wq. reflexivity. Qed.

Lemma sim_if {A} (c : bool) (mg1 mg2 : M _ A) mq1 mq2 :
  simulates mg1 mq1 -> simulates mg2 mq2 ->
  simulates (if c then mg1 else mg2) (if c then mq1 else mq2).
Proof. now destruct c. Qed.

Ltac sim_step :=
  first [ apply sim_ktime_get_ns | apply sim_jiffies | apply sim_timer_reduce
        | apply sim_emit | apply sim_ret
        | apply sim_read; intros []; reflexivity
        | apply sim_modify; intros []; reflexivity
        | apply sim_if
        | apply sim_bind; [| intros ?] ].

Lemma sim_time_to :
  simulates RfQos.time_to_rf_qos_update_ns time_to_sf_qos_update_ns.
Proof.
  unfold RfQos.time_to_rf_qos_update_ns, time_to_sf_qos_update_ns,
    atomic_read_acquire, atomic64_read.
  repeat sim_step.
Qed.

Lemma sim_update : simulates RfQos.intel_gt_rf_qos_update intel_qos_update.
Proof.
  unfold RfQos.intel_gt_rf_qos_update, intel_qos_update.
  apply sim_bind; [apply sim_time_to | intros r].
  repeat sim_step.
Qed.

Lemma sim_timeout :
  simulates RfQos.intel_gt_rf_qos_timeout intel_qos_timeout.
Proof.
  unfold RfQos.intel_gt_rf_qos_timeout, intel_qos_timeout.
  apply sim_bind; [apply sim_time_to | intros dt]. cbv zeta.
  intros wq.
  pose proof (to_s32_id _ PM_QOS_DEFAULT_VALUE_int) as Hdefault.
  destruct (dt =? 0), (dt >? 0).
  - exact (sim_update
             (World (dev wq) (timer wq) (tick wq)
                (QosUpdateRequest (to_s32 (target_hz (dev wq)))
                   :: trace wq))).
  - reflexivity.
  - unfold bind, RfQos.pm_qos_update_request, emit, ret,
      cpu_scaling_response_qos_update_request.
    cbn [fst snd dev timer tick trace rf_world]. rewrite Hdefault.
    exact (sim_update
             (World (dev wq) (timer wq) (tick wq)
                (QosUpdateRequest PM_QOS_DEFAULT_VALUE :: trace wq))).
  - unfold bind, RfQos.pm_qos_update_request, emit, ret,
      cpu_scaling_response_qos_update_request.
    cbn [fst snd dev timer tick trace rf_world]. rewrite Hdefault.
    reflexivity.
Qed.

Lemma sim_begin :
  simulates RfQos.intel_gt_pm_active_begin intel_qos_overload_begin.
Proof.
  unfold RfQos.intel_gt_pm_active_begin, intel_qos_overload_begin,
    atomic64_set, atomic_fetch_inc_release.
  apply sim_bind; [apply sim_time_to | intros r].
  repeat first [ apply sim_update | sim_step ].
Qed.

Lemma sim_end :
  simulates RfQos.intel_gt_pm_active_end intel_qos_overload_end.
Proof.
  unfold RfQos.intel_gt_pm_active_end, intel_qos_overload_end,
    atomic64_set, atomic_dec_return_release.
  apply sim_bind; [apply sim_time_to | intros r].
  repeat first [ apply sim_update | sim_step ].
Qed.

Lemma simulates_same_world {A} mg mq (wg : world RfQos.rf_qos) wq :
  @simulates A mg mq -> same_world wg wq ->
  result mg wg = result mq wq /\ same_world (run mg wg) (run mq wq).
Proof.
  intros Hsim Hsame. apply same_world_rf_world in Hsame. subst wg.
  unfold result, run. rewrite Hsim. cbn [fst snd].
  split; [reflexivity|]. now apply same_world_rf_world.
Qed.

(** What is proved of intel_qos.c carries over to intel_gt_pm.c: each
    function of the latter runs as its counterpart on the [intel_qos]
    with the same fields. *)
Lemma rf_world_sf_world (wg : world RfQos.rf_qos) :
  rf_world (sf_world wg) = wg.
Proof. now destruct wg as [[] ? ? ?]. Qed.

Lemma simulates_transfer {A} mg mq (wg : world RfQos.rf_qos) :
  @simulates A mg mq ->
  result mg wg = result mq (sf_world wg) /\
  run mg wg = rf_world (run mq (sf_world wg)).
Proof.
  intros Hsim. unfold result, run.
  pose proof (Hsim (sf_world wg)) as H.
  rewrite rf_world_sf_world in H. rewrite H. now split.
Qed.

Lemma rf_time_to_as_sf (wg : world RfQos.rf_qos) :
  result RfQos.time_to_rf_qos_update_ns wg =
  result time_to_sf_qos_update_ns (sf_world wg).
Proof. apply (simulates_transfer _ _ wg sim_time_to). Qed.

Lemma rf_timeout_as_sf (wg : world RfQos.rf_qos) :
  run RfQos.intel_gt_rf_qos_timeout wg =
  rf_world (run intel_qos_timeout (sf_world wg)).
Proof. apply (simulates_transfer _ _ wg sim_timeout). Qed.

Lemma rf_begin_as_sf (wg : world RfQos.rf_qos) :
  run RfQos.intel_gt_pm_active_begin wg =
  rf_world (run intel_qos_overload_begin (sf_world wg)).
Proof. apply (simulates_transfer _ _ wg sim_begin). Qed.

Lemma rf_end_as_sf (wg : world RfQos.rf_qos) :
  run RfQos.intel_gt_pm_active_end wg =
  rf_world (run intel_qos_overload_end (sf_world wg)).
Proof. apply (simulates_transfer _ _ wg sim_end). Qed.

Lemma rf_update_as_sf (wg : world RfQos.rf_qos) :
  run RfQos.intel_gt_rf_qos_update wg =
  rf_world (run intel_qos_update (sf_world wg)).
Proof. apply (simulates_transfer _ _ wg sim_update). Qed.

(** C10.  Run on equal configuration, equal atomics, equal timer state
    and the same clock readings, the copy in intel_gt_pm.c and the copy in
    intel_qos.c return the same [time_to_..._update_ns], and their update,
    timeout, begin and end functions leave equal states, with the same
    QoS requests and the same [timer_reduce] calls in the trace. *)
Theorem rf_sf_same_behaviour (wg : world RfQos.rf_qos)
  (wq : world intel_qos) :
  same_world wg wq ->
  result RfQos.time_to_rf_qos_update_ns wg =
    result time_to_sf_qos_update_ns wq /\
  same_world (run RfQos.time_to_rf_qos_update_ns wg)
             (run time_to_sf_qos_update_ns wq) /\
  same_world (run RfQos.intel_gt_rf_qos_update wg)
             (run intel_qos_update wq) /\
  same_world (run RfQos.intel_gt_rf_qos_timeout wg)
             (run intel_qos_timeout wq) /\
  same_world (run RfQos.intel_gt_pm_active_begin wg)
             (run intel_qos_overload_begin wq) /\
  same_world (run RfQos.intel_gt_pm_active_end wg)
             (run intel_qos_overload_end wq).
Proof.
  intros Hsame.
  split; [|split; [|split; [|split; [|split]]]].
  - now apply (simulates_same_world _ _ wg wq sim_time_to).
  - now apply (simulates_same_world _ _ wg wq sim_time_to).
  - now apply (simulates_same_world _ _ wg wq sim_update).
  - now apply (simulates_same_world _ _ wg wq sim_timeout).
  - now apply (simulates_same_world _ _ wg wq sim_begin).
  - now apply (simulates_same_world _ _ wg wq sim_end).
Qed.

End TwoCopies.

(** ** The statements at concrete inputs *)

Ltac concrete :=
  repeat split;
  try (vm_compute;
       first [ reflexivity | discriminate
             | let H := fresh in intros H; discriminate H
             | let H := fresh in intros H; apply H; reflexivity ]).





(** The shift is a 64-bit one: with a slope of 2^40 the product reaches
    2^64 after 16.8 ms of idle time and the shifted value is 0, so the
    result is 0 where the unbounded product would give the clamp. *)
Example idle_shift_wraps :
  active_count (dev steep_idle_world) = 0 /\
  now (K := steep_kernel) steep_idle_world
    - to_u64 (time_clear_ns (dev steep_idle_world)) = 2 ^ 24 /\
  result (time_to_sf_qos_update_ns (K := steep_kernel)) steep_idle_world = 0.
Proof. concrete. Qed.

(** C6 as stated fails at [delay_max_ns = 0]: the idle controller whose
    clock has not passed [time_clear_ns] returns -1. *)
Lemma time_to_update_exceeds_zero_clamp :
  wf (dev zero_clamp_world) /\
  delay_max_ns (dev zero_clamp_world) = 0 /\
  result (time_to_sf_qos_update_ns (K := demo_kernel)) zero_clamp_world = -1 /\
  ~ Z.abs (result (time_to_sf_qos_update_ns (K := demo_kernel))
             zero_clamp_world)
      <= delay_max_ns (dev zero_clamp_world).
Proof.
  split; [constructor; unfold is_u32, is_s32, is_s64; cbn; lia|].
  concrete.
Qed.

Lemma time_to_update_magnitude_witness :
  is_u32 (delay_max_ns (dev idle_world)) /\
  Z.abs (result (time_to_sf_qos_update_ns (K := demo_kernel)) idle_world)
    <= delay_max_ns (dev idle_world).
Proof.
  assert (Hd : is_u32 (delay_max_ns (dev idle_world))) by concrete.
  split; [exact Hd|].
  destruct (time_to_update_magnitude (K := demo_kernel) idle_world Hd)
    as (_ & Hval & _).
  apply Hval. concrete.
Defined.

Lemma timeout_request_and_rearm_witness :
  qos_requests (trace (run (intel_qos_timeout (K := demo_kernel))
                           active_world)) = [-1] /\
  timer_requests (trace (run (intel_qos_timeout (K := demo_kernel))
                             active_world)) = [0].
Proof.
  destruct (timeout_request_and_rearm (K := demo_kernel) active_world)
    as (Hreq & _ & _ & Htimer).
  split.
  - rewrite Hreq. vm_compute. reflexivity.
  - rewrite Htimer. vm_compute. reflexivity.
Defined.

Lemma overload_begin_effect_witness :
  time_set_ns (dev (run (intel_qos_overload_begin (K := demo_kernel))
                        idle_world)) = 1002100 /\
  active_count (dev (run (intel_qos_overload_begin (K := demo_kernel))
                         idle_world)) = 1.
Proof.
  destruct (overload_begin_effect (K := demo_kernel) idle_world)
    as (_ & Hset & _ & Hcount & _).
  split.
  - rewrite Hset; concrete.
  - rewrite Hcount; concrete.
Defined.


(** With [delay_max_ns] = 250 us and no slope, an overload that lasts
    250 us makes the timer request [target_hz], and 250 us after its end
    the timer requests the default value again. *)
Example sustained_overload_requests_target :
  qos_requests (trace (run (exec (K := scenario_kernel)
                                 [OverloadBegin; TimerFires])
                           decayed_world)) = [2] /\
  qos_requests (trace (run (exec (K := scenario_kernel) history)
                           decayed_world)) = [-1; 2] /\
  timer (run (exec (K := scenario_kernel) history) decayed_world) = None.
Proof. concrete. Qed.





(** C9 as stated fails: an end without a begin on the freshly initialised
    controller leaves [active_count] at -1, and nothing records it. *)
Lemma unmatched_end_not_detected :
  active_count (dev boot_world) = 0 /\
  active_count (dev (run (intel_qos_overload_end (K := demo_kernel))
                         boot_world)) = -1 /\
  active_count (dev (run (intel_qos_overload_end (K := demo_kernel))
                         boot_world)) <> 0 /\
  debug (dev (run (intel_qos_overload_end (K := demo_kernel)) boot_world))
    = debug (dev boot_world) /\
  dev (run (intel_qos_overload_end (K := demo_kernel)) boot_world)
    = demo_qos 0 100 (-1) /\
  trace (run (intel_qos_overload_end (K := demo_kernel)) boot_world) = [] /\
  timer (run (intel_qos_overload_end (K := demo_kernel)) boot_world) = None.
Proof. concrete. Qed.

Lemma unmatched_end_counts_below_zero_witness :
  active_count (dev boot_world) = 0 /\
  active_count (dev (run (intel_qos_overload_end (K := demo_kernel))
                         boot_world)) = -1.
Proof.
  split; [reflexivity|].
  now destruct (unmatched_end_counts_below_zero (K := demo_kernel)
                  boot_world eq_refl) as (Hcount & _).
Defined.

Lemma rf_sf_same_behaviour_witness :
  same_world (rf_world active_world) active_world /\
  result (RfQos.time_to_rf_qos_update_ns (K := demo_kernel))
         (rf_world active_world) = 4000 /\
  trace (run (RfQos.intel_gt_rf_qos_timeout (K := demo_kernel))
             (rf_world active_world))
    = trace (run (intel_qos_timeout (K := demo_kernel)) active_world).
Proof.
  assert (Hsame : same_world (rf_world active_world) active_world)
    by (repeat split).
  split; [exact Hsame|].
  destruct (rf_sf_same_behaviour (K := demo_kernel)
              (rf_world active_world) active_world Hsame)
    as (Hres & _ & _ & Htimeout & _).
  split.
  - rewrite Hres. vm_compute. reflexivity.
  - now destruct Htimeout as (_ & _ & _ & Htrace).
Defined.

(** * Further properties of the controller *)

Section Sequences.
Context {K : Kernel}.

Lemma to_s32_add_l x y : to_s32 (to_s32 x + y) = to_s32 (x + y).
Proof.
  unfold to_s32. f_equal.
  replace ((x + 2 ^ 31) mod 2 ^ 32 - 2 ^ 31 + y + 2 ^ 31)
    with ((x + 2 ^ 31) mod 2 ^ 32 + y) by lia.
  rewrite Zplus_mod_idemp_l. f_equal. lia.
Qed.

Lemma step_configuration (c : call) (w : world intel_qos) :
  configuration (dev (run (step c) w)) = configuration (dev w).
Proof.
  destruct c; cbn [step].
  - rewrite intel_qos_overload_begin_run.
    destruct (active_count (dev w) =? 0);
      [rewrite intel_qos_update_dev|]; reflexivity.
  - rewrite intel_qos_overload_end_run.
    destruct (to_s32 (active_count (dev w) - 1) =? 0);
      [rewrite intel_qos_update_dev|]; reflexivity.
  - now rewrite intel_qos_update_dev.
  - now destruct (timer_fires_effect w) as (-> & _).
Qed.

Lemma exec_configuration (cs : list call) (w : world intel_qos) :
  configuration (dev (run (exec cs) w)) = configuration (dev w).
Proof.
  revert w. induction cs as [| c cs IH]; intros w.
  - reflexivity.
  - rewrite run_exec_cons, IH. apply step_configuration.
Qed.

(** X1.  No call ever writes the configuration: after any sequence of
    begins, ends, updates and timer callbacks, [target_hz],
    [delay_max_ns], [delay_slope_shift] and [debug] are what they were. *)
Theorem exec_keeps_configuration (cs : list call) (w : world intel_qos) :
  target_hz (dev (run (exec cs) w)) = target_hz (dev w) /\
  delay_max_ns (dev (run (exec cs) w)) = delay_max_ns (dev w) /\
  delay_slope_shift (dev (run (exec cs) w)) = delay_slope_shift (dev w) /\
  debug (dev (run (exec cs) w)) = debug (dev w).
Proof.
  pose proof (exec_configuration cs w) as H.
  unfold configuration in H. injection H as H1 H2 H3 H4. auto.
Qed.

Lemma step_requests (c : call) (w : world intel_qos) :
  qos_requests (trace (run (step c) w)) =
  (if is_fire c
   then [if result time_to_sf_qos_update_ns w =? 0
         then to_s32 (target_hz (dev w)) else PM_QOS_DEFAULT_VALUE]
   else []) ++ qos_requests (trace w).
Proof.
  destruct c; cbn [step is_fire app].
  - rewrite intel_qos_overload_begin_run.
    destruct (active_count (dev w) =? 0);
      [rewrite intel_qos_update_run|]; reflexivity.
  - rewrite intel_qos_overload_end_run.
    destruct (to_s32 (active_count (dev w) - 1) =? 0);
      [rewrite intel_qos_update_run|]; reflexivity.
  - now rewrite intel_qos_update_run.
  - now destruct (timer_fires_effect w) as (_ & _ & ->).
Qed.

(** X2.  Only the timer callback talks to the QoS request: a sequence of
    calls issues exactly one request per firing of the timer, none for a
    begin, an end or an update, and each request is for [target_hz] (as an
    [s32]) or for [PM_QOS_DEFAULT_VALUE]. *)
Theorem requests_come_from_timer (cs : list call) (w : world intel_qos) :
  exists vs,
    qos_requests (trace (run (exec cs) w)) = vs ++ qos_requests (trace w) /\
    length vs = count_calls is_fire cs /\
    Forall (fun v => v = to_s32 (target_hz (dev w)) \/
                     v = PM_QOS_DEFAULT_VALUE) vs.
Proof.
  revert w. induction cs as [| c cs IH]; intros w.
  - exists []. repeat split. constructor.
  - rewrite run_exec_cons.
    destruct (IH (run (step c) w)) as (vs & Hreq & Hlen & Hall).
    pose proof (step_configuration c w) as Hcfg.
    unfold configuration in Hcfg. injection Hcfg as Hhz _ _ _.
    rewrite Hhz in Hall. rewrite Hreq, step_requests.
    unfold count_calls in *. cbn [filter].
    destruct (is_fire c).
    + eexists (vs ++ [_]). rewrite <- app_assoc. split; [reflexivity|].
      split.
      * rewrite length_app. cbn [length]. lia.
      * apply Forall_app. split; [exact Hall|]. constructor; [|constructor].
        destruct (result time_to_sf_qos_update_ns w =? 0); auto.
    + exists vs. cbn [app]. auto.
Qed.

Lemma step_active_count (c : call) (w : world intel_qos) :
  active_count (dev (run (step c) w)) =
  if is_begin c then to_s32 (active_count (dev w) + 1)
  else if is_end c then to_s32 (active_count (dev w) - 1)
  else active_count (dev w).
Proof.
  destruct c; cbn [step is_begin is_end].
  - rewrite intel_qos_overload_begin_run.
    destruct (active_count (dev w) =? 0);
      [rewrite intel_qos_update_dev|]; reflexivity.
  - rewrite intel_qos_overload_end_run.
    destruct (to_s32 (active_count (dev w) - 1) =? 0);
      [rewrite intel_qos_update_dev|]; reflexivity.
  - now rewrite intel_qos_update_dev.
  - now destruct (timer_fires_effect w) as (-> & _).
Qed.

(** X3.  The counter counts: after any sequence of calls [active_count]
    is its old value plus the number of begins minus the number of ends,
    as an [int]; a sequence with as many ends as begins restores it. *)
Theorem active_count_counts (cs : list call) (w : world intel_qos) :
  is_s32 (active_count (dev w)) ->
  active_count (dev (run (exec cs) w)) =
    to_s32 (active_count (dev w)
            + Z.of_nat (count_calls is_begin cs)
            - Z.of_nat (count_calls is_end cs)) /\
  (count_calls is_begin cs = count_calls is_end cs ->
   active_count (dev (run (exec cs) w)) = active_count (dev w)).
Proof.
  intros Hc.
  assert (H : active_count (dev (run (exec cs) w)) =
              to_s32 (active_count (dev w)
                      + Z.of_nat (count_calls is_begin cs)
                      - Z.of_nat (count_calls is_end cs))).
  { revert w Hc. induction cs as [| c cs IH]; intros w Hc.
    - unfold count_calls. cbn. rewrite Z.add_0_r, Z.sub_0_r.
      symmetry. now apply to_s32_id.
    - rewrite run_exec_cons.
      assert (Hs : is_s32 (active_count (dev (run (step c) w)))).
      { rewrite step_active_count.
        destruct (is_begin c); [apply to_s32_range|].
        destruct (is_end c); [apply to_s32_range | exact Hc]. }
      rewrite (IH _ Hs), step_active_count.
      unfold count_calls. cbn [filter].
      destruct c; cbn [is_begin is_end length].
      + rewrite <- Z.add_sub_assoc, to_s32_add_l. f_equal. lia.
      + rewrite <- Z.add_sub_assoc, to_s32_add_l. f_equal. lia.
      + reflexivity.
      + reflexivity. }
  split; [exact H|].
  intros Hbal. rewrite H, Hbal.
  replace (active_count (dev w) + Z.of_nat (count_calls is_end cs)
           - Z.of_nat (count_calls is_end cs))
    with (active_count (dev w)) by lia.
  now apply to_s32_id.
Qed.

Lemma reduce_to_pending (a d : Z) :
  exists a', reduce_to (Some a) d = Some a' /\ a' <= a.
Proof.
  cbn [reduce_to]. destruct (Z.leb_spec a d).
  - exists a. split; [reflexivity | lia].
  - exists d. split; [reflexivity | lia].
Qed.

Lemma step_keeps_pending (c : call) (w : world intel_qos) (a : Z) :
  c <> TimerFires -> timer w = Some a ->
  exists a', timer (run (step c) w) = Some a' /\ a' <= a.
Proof.
  intros Hc Ht.
  assert (Hupd : forall w0, timer w0 = Some a ->
            exists a', timer (run intel_qos_update w0) = Some a' /\ a' <= a).
  { intros w0 H0. rewrite intel_qos_update_run. cbn [timer]. rewrite H0.
    apply reduce_to_pending. }
  destruct c; cbn [step]; try contradiction.
  - rewrite intel_qos_overload_begin_run.
    destruct (active_count (dev w) =? 0).
    + now apply Hupd.
    + exists a. split; [exact Ht | lia].
  - rewrite intel_qos_overload_end_run.
    destruct (to_s32 (active_count (dev w) - 1) =? 0).
    + now apply Hupd.
    + exists a. split; [exact Ht | lia].
  - now apply Hupd.
Qed.

(** X4.  A pending timer is never cancelled nor postponed by the
    controller: through any sequence of begins, ends and updates it stays
    pending with an expiry no later than before. *)
Theorem pending_timer_only_moves_earlier (cs : list call)
  (w : world intel_qos) (a : Z) :
  ~ In TimerFires cs ->
  timer w = Some a ->
  exists a', timer (run (exec cs) w) = Some a' /\ a' <= a.
Proof.
  revert w a. induction cs as [| c cs IH]; intros w a Hcs Ht.
  - exists a. split; [exact Ht | lia].
  - rewrite run_exec_cons.
    destruct (step_keeps_pending c w a) as (a1 & Ht1 & Hle1).
    + intros ->. apply Hcs. now left.
    + exact Ht.
    + destruct (IH (run (step c) w) a1) as (a2 & Ht2 & Hle2).
      * intros Hin. apply Hcs. now right.
      * exact Ht1.
      * exists a2. split; [exact Ht2 | lia].
Qed.

End Sequences.

(** ** The value over time *)

Section OverTime.
Context {K : Kernel}.

Lemma now_range {Q} (w : world Q) : 0 <= now w < 2 ^ 64.
Proof. apply (to_u64_range (ktime_at (tick w))). Qed.

Lemma now_at_range (k : nat) : 0 <= now_at k < 2 ^ 64.
Proof. apply (to_u64_range (ktime_at k)). Qed.

Lemma neg_s32_small x : 0 <= x <= INT32_MAX -> neg_s32 (to_s32 x) = - x.
Proof.
  unfold INT32_MAX, neg_s32. intros H.
  rewrite (to_s32_id x) by (unfold is_s32; lia).
  apply to_s32_id. unfold is_s32. lia.
Qed.

(** The value of an idle controller, away from the 64-bit boundary. *)
Lemma time_to_sf_idle_exact (w : world intel_qos) :
  is_u32 (delay_max_ns (dev w)) ->
  delay_max_ns (dev w) <= INT32_MAX ->
  0 <= delay_slope_shift (dev w) ->
  now w * 2 ^ delay_slope_shift (dev w) < 2 ^ 64 ->
  active_count (dev w) = 0 ->
  result time_to_sf_qos_update_ns w =
  if now w <=? to_u64 (time_clear_ns (dev w)) then -1
  else - Z.min (delay_max_ns (dev w))
               ((now w - to_u64 (time_clear_ns (dev w)))
                * 2 ^ delay_slope_shift (dev w)).
Proof.
  intros Hd Hmax Hs Hfit Hidle.
  rewrite time_to_sf_idle by assumption.
  pose proof (now_range w) as Rn.
  pose proof (to_u64_range (time_clear_ns (dev w))) as R0.
  unfold is_u64, is_u32 in *.
  assert (Hp : 0 < 2 ^ delay_slope_shift (dev w))
    by (apply Z.pow_pos_nonneg; lia).
  destruct (Z.leb_spec (now w) (to_u64 (time_clear_ns (dev w)))).
  - reflexivity.
  - rewrite shl_u64_exact; [| lia | assumption | nia].
    apply neg_s32_small. nia.
Qed.

(** The value of an active controller whose clamp fits an [s32]. *)
Lemma time_to_sf_active_exact (w : world intel_qos) :
  is_u32 (delay_max_ns (dev w)) ->
  delay_max_ns (dev w) <= INT32_MAX ->
  active_count (dev w) <> 0 ->
  result time_to_sf_qos_update_ns w =
  Z.min (delay_max_ns (dev w))
        (Z.max 0 (to_u64 (time_set_ns (dev w)) - now w)).
Proof.
  intros Hd Hmax Hact. rewrite time_to_sf_active by assumption.
  apply to_s32_id. unfold is_s32, is_u32, INT32_MAX in *. lia.
Qed.

(** X5.  The sign of the result tells the state, as the comment above
    the function has it: with a clamp between 1 and INT32_MAX and away
    from the 64-bit boundary, the result is negative exactly when the
    controller is idle; it lies in [0, delay_max_ns] when active and in
    [-delay_max_ns, -1] when idle. *)
Theorem sign_tells_state (w : world intel_qos) :
  is_u32 (delay_max_ns (dev w)) ->
  1 <= delay_max_ns (dev w) <= INT32_MAX ->
  0 <= delay_slope_shift (dev w) ->
  now w * 2 ^ delay_slope_shift (dev w) < 2 ^ 64 ->
  (result time_to_sf_qos_update_ns w < 0 <-> active_count (dev w) = 0) /\
  (active_count (dev w) <> 0 ->
   0 <= result time_to_sf_qos_update_ns w <= delay_max_ns (dev w)) /\
  (active_count (dev w) = 0 ->
   - delay_max_ns (dev w) <= result time_to_sf_qos_update_ns w <= -1).
Proof.
  intros Hd HD Hs Hfit.
  assert (Hact : active_count (dev w) <> 0 ->
            0 <= result time_to_sf_qos_update_ns w <= delay_max_ns (dev w)).
  { intros H. rewrite time_to_sf_active_exact by (assumption || lia). lia. }
  assert (Hidle : active_count (dev w) = 0 ->
            - delay_max_ns (dev w) <= result time_to_sf_qos_update_ns w <= -1).
  { intros H. rewrite time_to_sf_idle_exact by (assumption || lia).
    pose proof (now_range w) as Rn.
    pose proof (to_u64_range (time_clear_ns (dev w))) as R0.
    unfold is_u64 in R0.
    assert (Hp : 0 < 2 ^ delay_slope_shift (dev w))
      by (apply Z.pow_pos_nonneg; lia).
    destruct (Z.leb_spec (now w) (to_u64 (time_clear_ns (dev w)))); [lia|].
    nia. }
  split; [|split; assumption].
  destruct (Z.eq_dec (active_count (dev w)) 0) as [H0 | Hn0].
  - specialize (Hidle H0). split; [auto | lia].
  - specialize (Hact Hn0). split; [lia | contradiction].
Qed.

(** X6.  "The time increment returned by this function decreases ...
    with time": for one and the same state, a later clock reading never
    gives a larger result (clamp between 1 and INT32_MAX, later reading
    away from the 64-bit boundary). *)
Theorem result_decreases_with_time (q : intel_qos) (k k' : nat)
  t tr t' tr' :
  is_u32 (delay_max_ns q) ->
  1 <= delay_max_ns q <= INT32_MAX ->
  0 <= delay_slope_shift q ->
  now_at k <= now_at k' ->
  now_at k' * 2 ^ delay_slope_shift q < 2 ^ 64 ->
  result time_to_sf_qos_update_ns (World q t' k' tr')
    <= result time_to_sf_qos_update_ns (World q t k tr).
Proof.
  intros Hd HD Hs Hle Hfit.
  pose proof (now_at_range k) as Rk. pose proof (now_at_range k') as Rk'.
  assert (Hp : 0 < 2 ^ delay_slope_shift q)
    by (apply Z.pow_pos_nonneg; lia).
  destruct (Z.eq_dec (active_count q) 0) as [Hidle | Hact].
  - rewrite !time_to_sf_idle_exact; cbn [dev tick];
      try assumption; try lia;
      try (change (now (World q t' k' tr')) with (now_at k'); lia);
      try (change (now (World q t k tr)) with (now_at k); nia).
    change (now (World q t' k' tr')) with (now_at k').
    change (now (World q t k tr)) with (now_at k).
    pose proof (to_u64_range (time_clear_ns q)) as R0. unfold is_u64 in R0.
    destruct (Z.leb_spec (now_at k') (to_u64 (time_clear_ns q)));
      destruct (Z.leb_spec (now_at k) (to_u64 (time_clear_ns q)));
      try lia; nia.
  - rewrite !time_to_sf_active_exact; cbn [dev]; try assumption; try lia.
    change (now (World q t' k' tr')) with (now_at k').
    change (now (World q t k tr)) with (now_at k). lia.
Qed.

End OverTime.

(** ** From one phase to the next *)

Section Handover.
Context {K : Kernel}.

(** With a clamp of at least 1 the magnitude stays within the clamp. *)
Lemma time_to_sf_abs_le (w : world intel_qos) :
  is_u32 (delay_max_ns (dev w)) ->
  1 <= delay_max_ns (dev w) ->
  Z.abs (result time_to_sf_qos_update_ns w) <= delay_max_ns (dev w).
Proof.
  intros Hd HD.
  destruct (Z.eq_dec (active_count (dev w)) 0) as [Hidle | Hact].
  - rewrite time_to_sf_idle by assumption.
    rewrite abs_neg_s32 by apply to_s32_range.
    destruct (Z.leb_spec (now w) (to_u64 (time_clear_ns (dev w)))).
    + change (to_s32 1) with 1. lia.
    + apply clamp_magnitude; [assumption | apply to_u64_range].
  - rewrite time_to_sf_active by assumption.
    apply clamp_magnitude; [assumption | lia].
Qed.

Lemma begin_dev (w : world intel_qos) :
  dev (run intel_qos_overload_begin w) = dev (after_begin_stores w).
Proof.
  rewrite intel_qos_overload_begin_run.
  destruct (active_count (dev w) =? 0);
    [apply intel_qos_update_dev | reflexivity].
Qed.

Lemma end_dev (w : world intel_qos) :
  dev (run intel_qos_overload_end w) = dev (after_end_stores w).
Proof.
  rewrite intel_qos_overload_end_run.
  destruct (to_s32 (active_count (dev w) - 1) =? 0);
    [apply intel_qos_update_dev | reflexivity].
Qed.

(** X7.  A begin turns the time to update into a countdown of the same
    length: if [time_to_sf_qos_update_ns] returned [r] to the begin, then
    afterwards it returns [|r|] less the time gone by since the begin read
    the clock, and 0 once that has run out.  In particular the sign flips
    and the magnitude is kept while the clock stands still. *)
Theorem begin_starts_countdown (w : world intel_qos) :
  let r := result time_to_sf_qos_update_ns w in
  let now2 := now_at (S (tick w)) in
  let w' := run intel_qos_overload_begin w in
  is_u32 (delay_max_ns (dev w)) ->
  1 <= delay_max_ns (dev w) <= INT32_MAX ->
  0 <= active_count (dev w) < INT32_MAX ->
  now2 < 2 ^ 63 ->
  now2 <= now w' ->
  result time_to_sf_qos_update_ns w' = Z.max 0 (Z.abs r - (now w' - now2)) /\
  (now w' = now2 -> result time_to_sf_qos_update_ns w' = Z.abs r).
Proof.
  intros r now2 w' Hd HD Hc Hnow Hmono.
  pose proof (time_to_sf_abs_le w Hd (proj1 HD)) as Habs. fold r in Habs.
  pose proof (begin_dev w) as Hdev. fold w' in Hdev.
  unfold after_begin_stores in Hdev. cbn [dev] in Hdev.
  fold r in Hdev. fold now2 in Hdev.
  pose proof (now_at_range (S (tick w))) as Rn. fold now2 in Rn.
  assert (Hval : result time_to_sf_qos_update_ns w' =
                 Z.max 0 (Z.abs r - (now w' - now2))).
  { rewrite time_to_sf_active_exact; rewrite Hdev;
      cbn [delay_max_ns active_count time_set_ns set_active_count
           set_time_set_ns]; try assumption; try lia.
    - rewrite to_u64_to_s64, to_u64_id
        by (unfold is_u64, is_u32, INT32_MAX in *; lia).
      lia.
    - unfold INT32_MAX in Hc.
      rewrite to_s32_id by (unfold is_s32; lia). lia. }
  split; [exact Hval|].
  intros Heq. rewrite Hval, Heq. lia.
Qed.

(** X8.  The end of the last period seeds the idle clock with what was
    left of the countdown: if [time_to_sf_qos_update_ns] returned [r] to
    the end, then afterwards it returns
    [-min(delay_max_ns, e << delay_slope_shift)] for
    [e = (|r| >> delay_slope_shift) + ] the time gone by since the end read
    the clock, and -1 while [e] is 0. *)
Theorem end_seeds_idle_clock (w : world intel_qos) :
  let r := result time_to_sf_qos_update_ns w in
  let now2 := now_at (S (tick w)) in
  let shift := delay_slope_shift (dev w) in
  let w' := run intel_qos_overload_end w in
  let e := Z.shiftr (Z.abs r) shift + (now w' - now2) in
  is_u32 (delay_max_ns (dev w)) ->
  delay_max_ns (dev w) <= INT32_MAX ->
  0 <= shift < 32 ->
  active_count (dev w) = 1 ->
  Z.shiftr (Z.abs r) shift <= now2 ->
  now2 <= now w' ->
  now w' * 2 ^ shift < 2 ^ 64 ->
  result time_to_sf_qos_update_ns w' =
    if e =? 0 then -1 else - Z.min (delay_max_ns (dev w)) (e * 2 ^ shift).
Proof.
  intros r now2 shift w' e Hd Hmax Hs Hone Hpast Hmono Hfit.
  pose proof (end_dev w) as Hdev. fold w' in Hdev.
  unfold after_end_stores in Hdev. cbn [dev] in Hdev.
  fold r in Hdev. fold now2 in Hdev. fold shift in Hdev.
  rewrite Hone in Hdev. change (to_s32 (1 - 1)) with 0 in Hdev.
  pose proof (now_at_range (S (tick w))) as Rn. fold now2 in Rn.
  pose proof (now_range w') as Rn'.
  assert (Hsh : 0 <= Z.shiftr (Z.abs r) shift).
  { apply Z.shiftr_nonneg. lia. }
  assert (Ht0 : to_u64 (time_clear_ns (dev w'))
                = now2 - Z.shiftr (Z.abs r) shift).
  { rewrite Hdev. cbn [time_clear_ns set_active_count set_time_clear_ns].
    rewrite to_u64_to_s64. apply to_u64_id. unfold is_u64. lia. }
  rewrite time_to_sf_idle_exact; rewrite ?Ht0; rewrite Hdev;
    cbn [delay_max_ns delay_slope_shift active_count set_active_count
         set_time_clear_ns]; fold shift; try assumption; try lia.
  subst e.
  destruct (Z.leb_spec (now w') (now2 - Z.shiftr (Z.abs r) shift));
    destruct (Z.eqb_spec (Z.shiftr (Z.abs r) shift + (now w' - now2)) 0);
    lia.
Qed.

(** X9.  While a period is open the timer callback requests [target_hz]
    exactly when the clock has reached [time_set_ns] (or the clamp is 0),
    and the default value before that. *)
Theorem callback_commits_at_deadline (w : world intel_qos) :
  is_u32 (delay_max_ns (dev w)) ->
  active_count (dev w) <> 0 ->
  qos_requests (trace (run timer_fires w)) =
    (if (delay_max_ns (dev w) =? 0)
        || (to_u64 (time_set_ns (dev w)) <=? now w)
     then to_s32 (target_hz (dev w)) else PM_QOS_DEFAULT_VALUE)
    :: qos_requests (trace w).
Proof.
  intros Hd Hact.
  destruct (timer_fires_effect w) as (_ & _ & ->). f_equal.
  rewrite time_to_sf_active by assumption. unfold is_u32 in Hd.
  destruct (Z.eqb_spec (delay_max_ns (dev w)) 0) as [H0 | Hn0];
    cbn [orb].
  - rewrite H0. replace (Z.min 0 _) with 0 by lia. reflexivity.
  - destruct (Z.leb_spec (to_u64 (time_set_ns (dev w))) (now w)).
    + replace (Z.min _ _) with 0 by lia. reflexivity.
    + assert (Hnz : to_s32 (Z.min (delay_max_ns (dev w))
                      (Z.max 0 (to_u64 (time_set_ns (dev w)) - now w))) <> 0)
        by (apply to_s32_nonzero; lia).
      apply Z.eqb_neq in Hnz. now rewrite Hnz.
Qed.

(** X10.  On an idle controller the timer callback does one thing only:
    it requests the default value.  It does not re-arm the timer and
    leaves the struct alone (clamp between 1 and INT32_MAX, clock away
    from the 64-bit boundary). *)
Theorem idle_callback_requests_default (w : world intel_qos) :
  is_u32 (delay_max_ns (dev w)) ->
  1 <= delay_max_ns (dev w) <= INT32_MAX ->
  0 <= delay_slope_shift (dev w) ->
  now w * 2 ^ delay_slope_shift (dev w) < 2 ^ 64 ->
  active_count (dev w) = 0 ->
  run timer_fires w =
  World (dev w) None (S (tick w))
        (QosUpdateRequest PM_QOS_DEFAULT_VALUE :: trace w).
Proof.
  intros Hd HD Hs Hfit Hidle.
  rewrite run_timer_fires, intel_qos_timeout_run. cbv zeta.
  rewrite result_time_to_world.
  assert (Hneg : result time_to_sf_qos_update_ns w <= -1).
  { rewrite time_to_sf_idle_exact by (assumption || lia).
    pose proof (now_range w) as Rn.
    pose proof (to_u64_range (time_clear_ns (dev w))) as R0.
    unfold is_u64 in R0.
    assert (Hp : 0 < 2 ^ delay_slope_shift (dev w))
      by (apply Z.pow_pos_nonneg; lia).
    destruct (Z.leb_spec (now w) (to_u64 (time_clear_ns (dev w)))); [lia|].
    nia. }
  destruct (Z.eqb_spec (result time_to_sf_qos_update_ns w) 0); [lia|].
  destruct (Z.ltb_spec 0 (result time_to_sf_qos_update_ns w)); [lia|].
  reflexivity.
Qed.

(** X11.  The end of the last period asks for the timer without delay:
    the deadline it passes to [timer_reduce] is
    [jiffies + nsecs_to_jiffies(0)], so that the callback can take the
    request back to the default value (clamp within INT32_MAX). *)
Theorem last_end_arms_at_once (w : world intel_qos) :
  is_u32 (delay_max_ns (dev w)) ->
  delay_max_ns (dev w) <= INT32_MAX ->
  active_count (dev w) = 1 ->
  timer_requests (trace (run intel_qos_overload_end w)) =
    to_ulong (to_ulong (jiffies_at (S (S (S (tick w)))))
              + to_ulong (nsecs_to_jiffies 0))
    :: timer_requests (trace w).
Proof.
  intros Hd Hmax Hone.
  rewrite intel_qos_overload_end_run, Hone.
  change (to_s32 (1 - 1) =? 0) with true. cbv iota.
  rewrite intel_qos_update_run. cbn [trace timer_requests].
  f_equal. unfold requested_deadline.
  assert (Hle : result time_to_sf_qos_update_ns (after_end_stores w) <= 0).
  { rewrite time_to_sf_idle;
      unfold after_end_stores;
      cbn [dev delay_max_ns active_count set_active_count
           set_time_clear_ns]; try assumption;
      [| rewrite Hone; reflexivity].
    set (v := if _ <=? _ then 1 else _).
    assert (Hv : 0 <= v <= INT32_MAX).
    { subst v. unfold is_u32, INT32_MAX in *.
      destruct (_ <=? _); [lia|].
      match goal with |- context [shl_u64 ?a ?b] =>
        pose proof (to_u64_range (Z.shiftl a b)) as R;
        fold (shl_u64 a b) in R; unfold is_u64 in R end.
      lia. }
    rewrite neg_s32_small by exact Hv. lia. }
  rewrite Z.max_l by exact Hle.
  unfold after_end_stores. cbn [tick]. reflexivity.
Qed.

End Handover.

(** ** Once committed *)

Section Committed.
Context {K : Kernel}.
Hypothesis clock_monotonic : forall i j, (i <= j)%nat -> now_at i <= now_at j.





End Committed.

(** * intel_gt_pm.c beyond the controller *)

Section GtParking.
Context {D : GtPm.Driver}.
Import GtPm.

Lemma gt_unpark_run (gt : intel_gt) :
  let h := intel_display_power_get_at (length (calls gt)) in
  CONFIG_DRM_I915_DEBUG_GEM && (h =? 0) = false ->
  __gt_unpark gt =
  Some (0, Gt (i915 gt) h (engines gt)
              (notifier_call_chain INTEL_GT_UNPARK :: gt_queue_hangcheck
               :: pmu_gt_unparked
               :: (if INTEL_GEN (i915 gt) >=? 6 then [gen6_rps_busy] else [])
               ++ update_gfx_val :: enable_gt_powersave
               :: (if NEEDS_RC6_CTX_CORRUPTION_WA (i915 gt)
                   then [uncore_forcewake_get] else [])
               ++ display_power_get :: calls gt)).
Proof.
  intros h Hh. subst h. destruct gt as [[gen wa clob] a es cs].
  cbn [calls] in Hh.
  unfold __gt_unpark, intel_display_power_get, pm_notify, GEM_BUG_ON,
    gbind, call, get, set_awake, gret.
  cbn -[Z.geb Z.eqb]. rewrite Hh. cbn -[Z.geb Z.eqb].
  destruct wa, (gen >=? 6); reflexivity.
Qed.

Lemma gt_park_run (gt : intel_gt) :
  CONFIG_DRM_I915_DEBUG_GEM && (awake gt =? 0) = false ->
  __gt_park gt =
  Some (0, Gt (i915 gt) 0 (engines gt)
              (display_power_put (awake gt) :: synchronize_irq
               :: (if NEEDS_RC6_CTX_CORRUPTION_WA (i915 gt)
                   then [uncore_forcewake_put; rc6_ctx_wa_check] else [])
               ++ (if INTEL_GEN (i915 gt) >=? 6 then [gen6_rps_idle] else [])
               ++ pmu_gt_parked :: notifier_call_chain INTEL_GT_PARK
               :: calls gt)).
Proof.
  intros Hh. destruct gt as [[gen wa clob] a es cs]. cbn [awake] in Hh.
  unfold __gt_park, fetch_and_zero_awake, pm_notify, GEM_BUG_ON,
    gbind, call, get, set_awake, gret.
  cbn -[Z.geb Z.eqb].
  destruct wa, (gen >=? 6); cbn -[Z.geb Z.eqb]; rewrite Hh; reflexivity.
Qed.

Lemma gt_unpark_bug (gt : intel_gt) :
  CONFIG_DRM_I915_DEBUG_GEM
    && (intel_display_power_get_at (length (calls gt)) =? 0) = true ->
  __gt_unpark gt = None.
Proof.
  intros Hh. destruct gt as [info a es cs]. cbn [calls] in Hh.
  unfold __gt_unpark, intel_display_power_get, pm_notify, GEM_BUG_ON,
    gbind, call, get, set_awake, gret.
  cbn -[Z.geb Z.eqb]. now rewrite Hh.
Qed.

Lemma gt_park_bug (gt : intel_gt) :
  CONFIG_DRM_I915_DEBUG_GEM && (awake gt =? 0) = true ->
  __gt_park gt = None.
Proof.
  intros Hh. destruct gt as [[gen wa clob] a es cs]. cbn [awake] in Hh.
  unfold __gt_park, fetch_and_zero_awake, pm_notify, GEM_BUG_ON,
    gbind, call, get, set_awake, gret.
  cbn -[Z.geb Z.eqb].
  destruct wa, (gen >=? 6); cbn -[Z.geb Z.eqb]; now rewrite Hh.
Qed.

(** X13.  Parking undoes unparking.  When the display power domain hands
    out a wakeref, [__gt_unpark] followed by [__gt_park] both return 0 and
    leave [awake] at 0; the park releases the very wakeref the unpark took;
    forcewake is taken and released under the same condition, the RPS is
    told busy then idle under the same condition, and the notifier chain
    hears UNPARK then PARK.  The engines are not touched. *)
Theorem park_undoes_unpark (gt : intel_gt) :
  let h := intel_display_power_get_at (length (calls gt)) in
  h <> 0 ->
  exists gt1 new,
    __gt_unpark gt = Some (0, gt1) /\ awake gt1 = h /\
    __gt_park gt1 = Some (0, Gt (i915 gt) 0 (engines gt) (new ++ calls gt)) /\
    power_calls new = [display_power_put h; display_power_get] /\
    forcewake_calls new =
      (if NEEDS_RC6_CTX_CORRUPTION_WA (i915 gt)
       then [uncore_forcewake_put; uncore_forcewake_get] else []) /\
    rps_calls new =
      (if INTEL_GEN (i915 gt) >=? 6 then [gen6_rps_idle; gen6_rps_busy]
       else []) /\
    notifications new = [INTEL_GT_PARK; INTEL_GT_UNPARK].
Proof.
  intros h Hh. apply Z.eqb_neq in Hh.
  assert (Hok : CONFIG_DRM_I915_DEBUG_GEM && (h =? 0) = false)
    by (rewrite Hh; apply andb_false_r).
  eexists. eexists.
  split; [apply gt_unpark_run; exact Hok|].
  split; [reflexivity|].
  split.
  - rewrite gt_park_run by exact Hok. cbn [i915 awake engines calls].
    change (display_power_get :: calls gt)
      with ([display_power_get] ++ calls gt).
    repeat rewrite app_comm_cons. rewrite !app_assoc. reflexivity.
  - destruct (NEEDS_RC6_CTX_CORRUPTION_WA (i915 gt)),
      (INTEL_GEN (i915 gt) >=? 6); repeat split.
Qed.

(** X14.  The null wakeref.  [__gt_unpark] stops at its [GEM_BUG_ON]
    exactly when the driver is a debug build and the power domain handed
    out no wakeref; [__gt_park] stops exactly when the driver is a debug
    build and the GT was not awake.  Whenever they return, they return 0,
    and the last thing a park does is release the wakeref it found in
    [awake], which it leaves at 0. *)
Theorem parking_bugs_on_null_wakeref (gt : intel_gt) :
  (__gt_unpark gt = None <->
   CONFIG_DRM_I915_DEBUG_GEM = true /\
   intel_display_power_get_at (length (calls gt)) = 0) /\
  (__gt_park gt = None <->
   CONFIG_DRM_I915_DEBUG_GEM = true /\ awake gt = 0) /\
  (forall r gt', __gt_unpark gt = Some (r, gt') -> r = 0) /\
  (forall r gt', __gt_park gt = Some (r, gt') ->
     r = 0 /\ awake gt' = 0 /\
     exists new, calls gt' = display_power_put (awake gt) :: new).
Proof.
  split; [|split; [|split]].
  - destruct (CONFIG_DRM_I915_DEBUG_GEM
              && (intel_display_power_get_at (length (calls gt)) =? 0))
      eqn:Hh.
    + rewrite (gt_unpark_bug gt Hh).
      apply andb_true_iff in Hh. destruct Hh as [Hd Hz].
      apply Z.eqb_eq in Hz. tauto.
    + rewrite (gt_unpark_run gt Hh). split; [discriminate|].
      intros [Hd Hz]. rewrite Hd, Hz in Hh. discriminate.
  - destruct (CONFIG_DRM_I915_DEBUG_GEM && (awake gt =? 0)) eqn:Hh.
    + rewrite (gt_park_bug gt Hh).
      apply andb_true_iff in Hh. destruct Hh as [Hd Hz].
      apply Z.eqb_eq in Hz. tauto.
    + rewrite (gt_park_run gt Hh). split; [discriminate|].
      intros [Hd Hz]. rewrite Hd, Hz in Hh. discriminate.
  - intros r gt'.
    destruct (CONFIG_DRM_I915_DEBUG_GEM
              && (intel_display_power_get_at (length (calls gt)) =? 0))
      eqn:Hh.
    + rewrite (gt_unpark_bug gt Hh). discriminate.
    + rewrite (gt_unpark_run gt Hh). now intros [= <- _].
  - intros r gt'.
    destruct (CONFIG_DRM_I915_DEBUG_GEM && (awake gt =? 0)) eqn:Hh.
    + rewrite (gt_park_bug gt Hh). discriminate.
    + rewrite (gt_park_run gt Hh). intros [= <- <-].
      cbn [awake calls]. repeat split. eexists. reflexivity.
Qed.

End GtParking.

Section GtEngines.
Context {D : GtPm.Driver}.
Import GtPm.

Lemma with_calls_nil (gt : intel_gt) : with_calls gt [] = gt.
Proof. now destruct gt. Qed.

Lemma with_calls_app (gt : intel_gt) new1 new2 :
  with_calls (with_calls gt new1) new2 = with_calls gt (new2 ++ new1).
Proof.
  unfold with_calls. cbn [i915 awake engines calls]. now rewrite app_assoc.
Qed.

Lemma call_run (c : call_out) (gt : intel_gt) :
  call c gt = Some (tt, with_calls gt [c]).
Proof. reflexivity. Qed.

Lemma engine_resets_app cs1 cs2 :
  engine_resets (cs1 ++ cs2) = engine_resets cs1 ++ engine_resets cs2.
Proof.
  induction cs1 as [| c cs1 IH]; [reflexivity|].
  destruct c; cbn [app engine_resets]; rewrite IH; reflexivity.
Qed.

Lemma sanitize_each_run (es : list engine) (gt : intel_gt) :
  exists new,
    sanitize_each es gt = Some (tt, with_calls gt new) /\
    engine_resets new = rev (map id es) /\
    (forall c, In c new -> exists e, c = engine_reset e).
Proof.
  revert gt. induction es as [| engine rest IH]; intros gt.
  - exists []. rewrite with_calls_nil. repeat split. intros c [].
  - cbn [sanitize_each]. unfold gbind. rewrite call_run.
    destruct (IH (with_calls gt [engine_reset (id engine)]))
      as (new & Hrun & Hres & Hall).
    exists (new ++ [engine_reset (id engine)]).
    rewrite Hrun, with_calls_app. split; [reflexivity|]. split.
    + rewrite engine_resets_app, Hres. reflexivity.
    + intros c Hin. apply in_app_or in Hin. destruct Hin as [Hin | [<- | []]].
      * now apply Hall.
      * now eexists.
Qed.

(** X15.  What a sanitize resets.  [intel_gt_sanitize] never stops at a
    bug and changes nothing in the GT itself.  It sanitizes the
    microcontrollers first, asks for a GT reset exactly when a reset does
    not clobber the display, and then resets every engine, each once and in
    order, exactly when [force] is set or that GT reset returned 0;
    otherwise it resets no engine. *)
Theorem sanitize_resets_engines (force : bool) (gt : intel_gt) :
  let clobbers := gpu_reset_clobbers_display (i915 gt) in
  let reset_ok :=
    negb clobbers && (intel_gt_reset_at (S (length (calls gt))) =? 0) in
  exists new,
    intel_gt_sanitize force gt = Some (tt, with_calls gt new) /\
    last new uc_sanitize = uc_sanitize /\
    new <> [] /\
    (In gt_reset_all_engines new <-> clobbers = false) /\
    engine_resets new =
      (if force || reset_ok then rev (map id (engines gt)) else []).
Proof.
  intros clobbers reset_ok.
  destruct (sanitize_each_run (engines gt) (with_calls gt [uc_sanitize]))
    as (n1 & Hrun1 & Hres1 & Hall1).
  destruct (sanitize_each_run (engines gt)
              (with_calls gt [gt_reset_all_engines; uc_sanitize]))
    as (n2 & Hrun2 & Hres2 & Hall2).
  rewrite with_calls_app in Hrun1, Hrun2.
  assert (Hno : forall n, (forall c, In c n -> exists e, c = engine_reset e) ->
                  ~ In gt_reset_all_engines n).
  { intros n Hall Hin. destruct (Hall _ Hin) as [e He]. discriminate. }
  assert (Hlast : forall (n : list call_out) tl, tl <> [] ->
                    last (n ++ tl) uc_sanitize = last tl uc_sanitize).
  { intros n tl Htl. induction n as [| c n IHn]; [reflexivity|].
    cbn [app]. rewrite <- IHn. cbn [last].
    destruct (n ++ tl) eqn:E; [|reflexivity].
    apply app_eq_nil in E. destruct E. contradiction. }
  unfold intel_gt_sanitize, reset_engines, __intel_gt_reset, gbind, get, gret.
  rewrite call_run.
  change (i915 (with_calls gt [uc_sanitize])) with (i915 gt).
  fold clobbers. subst reset_ok.
  destruct clobbers; cbn [negb andb orb].
  - (* the reset would clobber the display *)
    rewrite orb_false_r. destruct force; cbn [negb andb].
    + change (engines (with_calls gt [uc_sanitize])) with (engines gt).
      rewrite Hrun1.
      exists (n1 ++ [uc_sanitize]). split; [reflexivity|].
      split; [rewrite Hlast by discriminate; reflexivity|].
      split; [now destruct n1|]. split.
      * split; [|discriminate]. intros Hin.
        apply in_app_or in Hin. destruct Hin as [Hin | [Hin | []]].
        -- now apply Hno in Hin.
        -- discriminate.
      * rewrite engine_resets_app, Hres1. cbn. now rewrite app_nil_r.
    + exists [uc_sanitize]. split; [reflexivity|]. split; [reflexivity|].
      split; [discriminate|]. split; [|reflexivity].
      split; [|discriminate]. intros [Hin | []]. discriminate.
  - (* the reset is attempted *)
    rewrite call_run, with_calls_app. cbn [app].
    change (length (calls (with_calls gt [uc_sanitize])))
      with (S (length (calls gt))).
    change (engines (with_calls gt [gt_reset_all_engines; uc_sanitize]))
      with (engines gt).
    destruct (intel_gt_reset_at (S (length (calls gt))) =? 0);
      cbn [negb andb orb]; [|destruct force; cbn [negb andb orb]].
    + rewrite orb_true_r.
      change (engines (with_calls gt [gt_reset_all_engines; uc_sanitize]))
        with (engines gt).
      rewrite Hrun2.
      exists (n2 ++ [gt_reset_all_engines; uc_sanitize]).
      split; [reflexivity|].
      split; [rewrite Hlast by discriminate; reflexivity|].
      split; [now destruct n2|]. split.
      * split; [reflexivity|]. intros _. apply in_or_app. right. now left.
      * rewrite engine_resets_app, Hres2. cbn. now rewrite app_nil_r.
    + change (engines (with_calls gt [gt_reset_all_engines; uc_sanitize]))
        with (engines gt).
      rewrite Hrun2.
      exists (n2 ++ [gt_reset_all_engines; uc_sanitize]).
      split; [reflexivity|].
      split; [rewrite Hlast by discriminate; reflexivity|].
      split; [now destruct n2|]. split.
      * split; [reflexivity|]. intros _. apply in_or_app. right. now left.
      * rewrite engine_resets_app, Hres2. cbn. now rewrite app_nil_r.
    + exists [gt_reset_all_engines; uc_sanitize].
      split; [reflexivity|]. split; [reflexivity|].
      split; [discriminate|]. split; [|reflexivity].
      split; [reflexivity|]. intros _. now left.
Qed.

End GtEngines.

Section GtResume.
Context {D : GtPm.Driver}.
Import GtPm.

Lemma pm_gets_app cs1 cs2 : pm_gets (cs1 ++ cs2) = pm_gets cs1 ++ pm_gets cs2.
Proof.
  induction cs1 as [| c cs1 IH]; [reflexivity|].
  destruct c; cbn [app pm_gets]; rewrite IH; reflexivity.
Qed.

Lemma pm_puts_app cs1 cs2 : pm_puts (cs1 ++ cs2) = pm_puts cs1 ++ pm_puts cs2.
Proof.
  induction cs1 as [| c cs1 IH]; [reflexivity|].
  destruct c; cbn [app pm_puts]; rewrite IH; reflexivity.
Qed.

Lemma resumed_app cs1 cs2 : resumed (cs1 ++ cs2) = resumed cs1 ++ resumed cs2.
Proof.
  induction cs1 as [| c cs1 IH]; [reflexivity|].
  destruct c; cbn [app resumed]; rewrite IH; reflexivity.
Qed.

Lemma errors_logged_app cs1 cs2 :
  errors_logged (cs1 ++ cs2) = errors_logged cs1 ++ errors_logged cs2.
Proof.
  induction cs1 as [| c cs1 IH]; [reflexivity|].
  destruct c; cbn [app errors_logged]; rewrite IH; reflexivity.
Qed.

Lemma context_resets_app cs1 cs2 :
  context_resets (cs1 ++ cs2) = context_resets cs1 ++ context_resets cs2.
Proof.
  induction cs1 as [| c cs1 IH]; [reflexivity|].
  destruct c; cbn [app context_resets]; rewrite IH; reflexivity.
Qed.

Lemma kernel_contexts_cons (e : engine) (es : list engine) :
  kernel_contexts (e :: es) = kernel_contexts [e] ++ kernel_contexts es.
Proof. unfold kernel_contexts. cbn [flat_map]. now rewrite app_nil_r. Qed.

Lemma rev_kernel_contexts_one (e : engine) :
  rev (kernel_contexts [e]) = kernel_contexts [e].
Proof.
  unfold kernel_contexts. cbn [flat_map].
  now destruct (kernel_context e).
Qed.

(** The calls one turn of the loop makes before it looks at [err]. *)
Lemma resume_turn (engine : engine) (gt : intel_gt) :
  exists turn,
    (gbind (call (engine_pm_get (id engine)))
       (fun _ => gbind (match kernel_context engine with
                        | Some ce => call (context_reset ce)
                        | None => gret tt
                        end)
       (fun _ => gbind (call (engine_resume (id engine)))
       (fun _ => call (engine_pm_put (id engine)))))) gt
    = Some (tt, with_calls gt turn) /\
    pm_gets turn = [id engine] /\ pm_puts turn = [id engine] /\
    resumed turn = [id engine] /\ errors_logged turn = [] /\
    context_resets turn = kernel_contexts [engine] /\
    ~ In gt_pm_get turn /\ ~ In gt_pm_put turn.
Proof.
  unfold kernel_contexts. cbn [flat_map].
  destruct (kernel_context engine) as [ce |].
  - exists [engine_pm_put (id engine); engine_resume (id engine);
            context_reset ce; engine_pm_get (id engine)].
    repeat split; try reflexivity;
      intros [H | [H | [H | [H | []]]]]; discriminate.
  - exists [engine_pm_put (id engine); engine_resume (id engine);
            engine_pm_get (id engine)].
    repeat split; try reflexivity;
      intros [H | [H | [H | []]]]; discriminate.
Qed.

Lemma resume_each_run (es : list engine) (gt : intel_gt) :
  exists new,
    resume_each es gt =
      Some ((first_error es, map bump_serial (touched es) ++ untouched es),
            with_calls gt new) /\
    pm_gets new = rev (map id (touched es)) /\
    pm_puts new = rev (map id (touched es)) /\
    resumed new = rev (map id (touched es)) /\
    context_resets new = rev (kernel_contexts (touched es)) /\
    errors_logged new =
      map (fun e => (id e, resume e))
          (filter (fun e => negb (resume e =? 0)) (touched es)) /\
    ~ In gt_pm_get new /\ ~ In gt_pm_put new.
Proof.
  revert gt. induction es as [| engine rest IH]; intros gt.
  - exists []. rewrite with_calls_nil. repeat split; intros [].
  - destruct (resume_turn engine gt)
      as (turn & Hturn & Hg & Hp & Hr & He & Hc & Hng & Hnp).
    cbn [resume_each touched untouched first_error].
    unfold gbind in Hturn |- *.
    destruct (call (engine_pm_get (id engine)) gt) as [[[] g1] |];
      [|discriminate].
    destruct ((match kernel_context engine with
               | Some ce => call (context_reset ce)
               | None => gret tt
               end) g1) as [[[] g2] |]; [|discriminate].
    destruct (call (engine_resume (id engine)) g2) as [[[] g3] |];
      [|discriminate].
    rewrite Hturn.
    destruct (Z.eqb_spec (resume engine) 0) as [Hok | Hbad]; cbn [negb].
    + destruct (IH (with_calls gt turn))
        as (new & Hrun & Hg' & Hp' & Hr' & Hc' & He' & Hng' & Hnp').
      rewrite Hrun, with_calls_app. cbn [fst snd].
      exists (new ++ turn). split; [reflexivity|].
      rewrite pm_gets_app, pm_puts_app, resumed_app, context_resets_app,
        errors_logged_app, Hg, Hp, Hr, He, Hc, Hg', Hp', Hr', Hc', He'.
      cbn [negb map rev filter]. rewrite Hok. cbn [Z.eqb negb].
      rewrite (kernel_contexts_cons engine (touched rest)), rev_app_distr,
        rev_kernel_contexts_one, app_nil_r.
      repeat split; try reflexivity.
      * intros Hin. apply in_app_or in Hin. tauto.
      * intros Hin. apply in_app_or in Hin. tauto.
    + rewrite call_run, with_calls_app.
      exists ([dev_err (id engine) (resume engine)] ++ turn).
      split; [reflexivity|].
      rewrite pm_gets_app, pm_puts_app, resumed_app, context_resets_app,
        errors_logged_app, Hg, Hp, Hr, He, Hc.
      cbn [map rev filter app pm_gets pm_puts resumed context_resets
           errors_logged].
      apply Z.eqb_neq in Hbad. rewrite Hbad. cbn [negb map].
      rewrite rev_kernel_contexts_one.
      repeat split; try reflexivity.
      * intros [H | Hin]; [discriminate | tauto].
      * intros [H | Hin]; [discriminate | tauto].
Qed.

Lemma touched_untouched (es : list engine) : touched es ++ untouched es = es.
Proof.
  induction es as [| e rest IH]; [reflexivity|].
  cbn [touched untouched]. destruct (resume e =? 0); cbn [app]; congruence.
Qed.

Lemma first_error_zero (es : list engine) :
  first_error es = 0 <-> Forall (fun e => resume e = 0) es.
Proof.
  induction es as [| e rest IH]; cbn [first_error].
  - split; [constructor | reflexivity].
  - destruct (Z.eqb_spec (resume e) 0) as [Hok | Hbad].
    + rewrite IH. split; [now constructor | now inversion 1].
    + split; [contradiction | now inversion 1].
Qed.

Lemma untouched_nil (es : list engine) :
  first_error es = 0 -> untouched es = [].
Proof.
  induction es as [| e rest IH]; [reflexivity|].
  cbn [first_error untouched].
  destruct (Z.eqb_spec (resume e) 0); [exact IH | contradiction].
Qed.

Lemma intel_gt_resume_run (gt : intel_gt) :
  exists mid,
    intel_gt_resume gt =
      Some (first_error (engines gt),
            Gt (i915 gt) (awake gt)
               (map bump_serial (touched (engines gt))
                ++ untouched (engines gt))
               ((gt_pm_put :: mid ++ [gt_pm_get]) ++ calls gt)) /\
    pm_gets mid = rev (map id (touched (engines gt))) /\
    pm_puts mid = rev (map id (touched (engines gt))) /\
    resumed mid = rev (map id (touched (engines gt))) /\
    context_resets mid = rev (kernel_contexts (touched (engines gt))) /\
    errors_logged mid =
      map (fun e => (id e, resume e))
          (filter (fun e => negb (resume e =? 0)) (touched (engines gt))) /\
    ~ In gt_pm_get mid /\ ~ In gt_pm_put mid.
Proof.
  destruct (resume_each_run (engines gt) (with_calls gt [gt_pm_get]))
    as (mid & Hrun & Hrest).
  exists mid. split; [|exact Hrest].
  unfold intel_gt_resume, gbind, get, set_engines, gret.
  rewrite call_run.
  change (engines (with_calls gt [gt_pm_get])) with (engines gt).
  rewrite Hrun, with_calls_app. cbn [fst snd].
  unfold call, with_calls. cbn [i915 awake engines calls].
  reflexivity.
Qed.

(** X16.  A resume stops at the first engine that fails.
    [intel_gt_resume] returns 0 exactly when every engine resumes, and
    otherwise the error of the first engine whose [resume] hook fails.  The
    engines up to and including that one have had their hook called, in
    order, and their [serial] bumped; it alone is reported by [dev_err];
    the engines after it are left as they were, hook not called. *)
Theorem resume_stops_at_first_failure (gt : intel_gt) :
  exists gt' new,
    intel_gt_resume gt = Some (first_error (engines gt), gt') /\
    calls gt' = new ++ calls gt /\
    (first_error (engines gt) = 0 <->
     Forall (fun e => resume e = 0) (engines gt)) /\
    engines gt' = map bump_serial (touched (engines gt))
                  ++ untouched (engines gt) /\
    touched (engines gt) ++ untouched (engines gt) = engines gt /\
    (first_error (engines gt) = 0 -> untouched (engines gt) = []) /\
    resumed new = rev (map id (touched (engines gt))) /\
    errors_logged new =
      map (fun e => (id e, resume e))
          (filter (fun e => negb (resume e =? 0)) (touched (engines gt))).
Proof.
  destruct (intel_gt_resume_run gt)
    as (mid & Hrun & _ & _ & Hr & _ & He & _).
  eexists. eexists. split; [exact Hrun|]. cbn [calls engines].
  split; [reflexivity|].
  split; [apply first_error_zero|].
  split; [reflexivity|].
  split; [apply touched_untouched|].
  split; [apply untouched_nil|].
  cbn [app resumed errors_logged].
  rewrite resumed_app, errors_logged_app, Hr, He. cbn.
  now rewrite !app_nil_r.
Qed.


End GtResume.

(** * Setting up *)

Section Setup.
Context {K : Kernel}.

(** X18.  [intel_qos_init] writes the configuration and nothing else:
    the two timestamps and the counter keep whatever the memory held, the
    timer is not pending.  From then on, whatever is called, the
    configuration stays at 2 Hz, 10 ms and slope 1, and the time to update
    never exceeds 10 ms in magnitude. *)
Theorem init_then_any_calls (cs : list call) (w : world intel_qos) :
  let w0 := fst (intel_qos_init w) in
  let w1 := run (exec cs) w0 in
  (time_set_ns (dev w0) = time_set_ns (dev w) /\
   time_clear_ns (dev w0) = time_clear_ns (dev w) /\
   active_count (dev w0) = active_count (dev w) /\
   timer w0 = None /\ trace w0 = trace w) /\
  (target_hz (dev w1) = 2 /\ delay_max_ns (dev w1) = 10000000 /\
   delay_slope_shift (dev w1) = 1) /\
  Z.abs (result time_to_sf_qos_update_ns w1) <= 10000000.
Proof.
  intros w0 w1.
  pose proof (exec_configuration cs w0) as Hcfg. fold w1 in Hcfg.
  unfold configuration in Hcfg. injection Hcfg as Hhz HD Hs _.
  cbn in Hhz, HD, Hs.
  split; [repeat split|]. split; [auto|].
  rewrite <- HD. apply time_to_sf_abs_le; rewrite HD; unfold is_u32; lia.
Qed.

(** X19.  With the settings of [intel_gt_pm_init_early] (250 us, no
    slope) the time to update of the intel_gt copy is plain: while active,
    what is left until [time_set_ns], at most 250 us; while idle, minus the
    time gone by since [time_clear_ns], at most 250 us, and -1 if none has.
    The init itself leaves the timestamps and the counter as the memory
    held them. *)
Theorem gt_init_early_plain_countdown (wg : world RfQos.rf_qos) :
  let wg0 := fst (intel_gt_pm_init_early wg) in
  let r := result RfQos.time_to_rf_qos_update_ns wg0 in
  (RfQos.time_set_ns (dev wg0) = RfQos.time_set_ns (dev wg) /\
   RfQos.time_clear_ns (dev wg0) = RfQos.time_clear_ns (dev wg) /\
   RfQos.active_count (dev wg0) = RfQos.active_count (dev wg) /\
   timer wg0 = None) /\
  (RfQos.active_count (dev wg) <> 0 ->
   r = Z.min 250000
         (Z.max 0 (to_u64 (RfQos.time_set_ns (dev wg)) - now wg))) /\
  (RfQos.active_count (dev wg) = 0 ->
   r = if now wg <=? to_u64 (RfQos.time_clear_ns (dev wg)) then -1
       else - Z.min 250000
                (now wg - to_u64 (RfQos.time_clear_ns (dev wg)))).
Proof.
  intros wg0 r. split; [repeat split|].
  subst r. rewrite rf_time_to_as_sf.
  assert (Hd : is_u32 (delay_max_ns (dev (sf_world wg0))))
    by (cbn; unfold is_u32; lia).
  assert (Hm : delay_max_ns (dev (sf_world wg0)) <= INT32_MAX)
    by (cbn; unfold INT32_MAX; lia).
  pose proof (now_range wg) as Rn.
  split.
  - intros Hact. rewrite time_to_sf_active_exact by assumption.
    reflexivity.
  - intros Hidle.
    rewrite time_to_sf_idle_exact; try assumption.
    + change (now (sf_world wg0)) with (now wg).
      cbn [sf_world sf_of dev wg0 intel_gt_pm_init_early fst
           RfQos.time_clear_ns RfQos.delay_max_ns RfQos.delay_slope_shift
           time_clear_ns delay_max_ns delay_slope_shift].
      change (2 ^ 0) with 1. now rewrite Z.mul_1_r.
    + cbn. lia.
    + change (now (sf_world wg0)) with (now wg).
      change (2 ^ delay_slope_shift (dev (sf_world wg0))) with 1. lia.
Qed.

End Setup.

(** * virtgpu_prime.c *)

Section VirtGpuPrime.
Context {E : VirtGpu.Env}.
Import VirtGpu.

(** X20.  What [virtgpu_gem_prime_get_uuid] hands back.  It returns
    only once the object has left the initializing state; it returns 0
    exactly for an initialized object, and only then writes the caller's
    buffer, with the object's UUID; for an object whose initialization
    failed it returns [-ENODEV], a negative value, and leaves the buffer
    alone. *)
Theorem get_uuid_writes_only_on_success (bo : virtio_gpu_object)
  (uuid_out : Z) :
  (virtgpu_gem_prime_get_uuid bo uuid_out = None <->
   uuid_state bo = UUID_INITIALIZING) /\
  (forall r out', virtgpu_gem_prime_get_uuid bo uuid_out = Some (r, out') ->
     (r = 0 <-> uuid_state bo = UUID_INITIALIZED) /\
     (r = 0 -> out' = uuid bo) /\
     (r <> 0 -> r = - ENODEV /\ r < 0 /\ out' = uuid_out /\
                uuid_state bo = UUID_INITIALIZATION_FAILED)).
Proof.
  pose proof ENODEV_positive as Hpos.
  unfold virtgpu_gem_prime_get_uuid.
  destruct (uuid_state bo); split;
    try (split; [reflexivity || discriminate | reflexivity || discriminate]);
    intros r out' [= <- <-] || (intros r out'; discriminate).
  - repeat split; try reflexivity; intros; try lia; try discriminate.
  - repeat split; try reflexivity; intros; try lia; try discriminate.
Qed.

(** X21.  Exporting from a device that cannot assign UUIDs.  The export
    goes straight to [drm_gem_prime_export] and returns what that returns,
    without the assign command; it marks the object as failed whatever its
    state was, so that a later [virtgpu_gem_prime_get_uuid] does not wait,
    returns [-ENODEV] and leaves the caller's buffer alone. *)
Theorem export_without_uuid_support (vgdev : virtio_gpu_device)
  (bo : virtio_gpu_object) (flags : Z) :
  has_resource_assign_uuid vgdev = false ->
  exists bo',
    virtgpu_gem_prime_export vgdev bo flags =
      (drm_gem_prime_export bo' flags, bo', [gem_prime_export flags]) /\
    uuid bo' = uuid bo /\
    forall uuid_out,
      virtgpu_gem_prime_get_uuid bo' uuid_out = Some (- ENODEV, uuid_out).
Proof.
  intros Hno. unfold virtgpu_gem_prime_export. rewrite Hno.
  eexists. split; [reflexivity|]. split; [reflexivity|].
  intros uuid_out. reflexivity.
Qed.

(** X22.  Exporting from a device that assigns UUIDs.  The assign
    command is issued first; if it fails, the export returns its error as
    an [ERR_PTR] and [drm_gem_prime_export] is not called; if it returns 0
    the export returns what [drm_gem_prime_export] returns for the object
    as the command left it.  The export itself does not touch the
    object. *)
Theorem export_with_uuid_support (vgdev : virtio_gpu_device)
  (bo : virtio_gpu_object) (flags : Z) :
  has_resource_assign_uuid vgdev = true ->
  let ret := fst (virtio_gpu_cmd_resource_assign_uuid bo) in
  let bo1 := snd (virtio_gpu_cmd_resource_assign_uuid bo) in
  (ret <> 0 ->
   virtgpu_gem_prime_export vgdev bo flags =
     (ERR_PTR ret, bo1, [cmd_resource_assign_uuid])) /\
  (ret = 0 ->
   virtgpu_gem_prime_export vgdev bo flags =
     (drm_gem_prime_export bo1 flags, bo1,
      [gem_prime_export flags; cmd_resource_assign_uuid])) /\
  (forall p bo' cs, virtgpu_gem_prime_export vgdev bo flags = (p, bo', cs) ->
     bo' = bo1 /\ last cs cmd_resource_assign_uuid = cmd_resource_assign_uuid
     /\ (In (gem_prime_export flags) cs <-> ret = 0)).
Proof.
  intros Hyes ret bo1. unfold virtgpu_gem_prime_export. rewrite Hyes.
  subst ret bo1.
  destruct (virtio_gpu_cmd_resource_assign_uuid bo) as [ret bo1].
  cbn [fst snd].
  destruct (Z.eqb_spec ret 0) as [H0 | Hn0]; cbn [negb].
  - split; [contradiction|]. split; [reflexivity|].
    intros p bo' cs [= <- <- <-]. repeat split; auto. now left.
  - split; [reflexivity|]. split; [contradiction|].
    intros p bo' cs [= <- <- <-]. repeat split; auto.
    + intros [H | []]. discriminate.
    + contradiction.
Qed.

End VirtGpuPrime.

(** * A period that ends at once *)

Section RoundTrip.
Context {K : Kernel}.


End RoundTrip.

(** * The further properties at concrete inputs *)


Lemma active_count_counts_witness :
  is_s32 (active_count (dev boot_world)) /\
  count_calls is_begin history = count_calls is_end history /\
  active_count (dev (run (exec (K := history_kernel) history) boot_world))
    = 0.
Proof.
  assert (Hs : is_s32 (active_count (dev boot_world))) by concrete.
  split; [exact Hs|]. split; [reflexivity|].
  destruct (active_count_counts (K := history_kernel) history boot_world Hs)
    as [_ Hbal].
  rewrite Hbal; reflexivity.
Defined.

Lemma pending_timer_only_moves_earlier_witness :
  ~ In TimerFires [OverloadBegin; ScheduleUpdate; OverloadEnd] /\
  timer armed_world = Some 300 /\
  exists a',
    timer (run (exec (K := demo_kernel)
                     [OverloadBegin; ScheduleUpdate; OverloadEnd])
               armed_world) = Some a' /\ a' <= 300.
Proof.
  assert (Hno : ~ In TimerFires [OverloadBegin; ScheduleUpdate; OverloadEnd]).
  { intros [H | [H | [H | []]]]; discriminate H. }
  split; [exact Hno|]. split; [reflexivity|].
  exact (pending_timer_only_moves_earlier (K := demo_kernel)
           [OverloadBegin; ScheduleUpdate; OverloadEnd] armed_world 300
           Hno eq_refl).
Defined.

Lemma sign_tells_state_witness :
  is_u32 (delay_max_ns (dev idle_world)) /\
  1 <= delay_max_ns (dev idle_world) <= INT32_MAX /\
  0 <= delay_slope_shift (dev idle_world) /\
  now (K := demo_kernel) idle_world * 2 ^ delay_slope_shift (dev idle_world)
    < 2 ^ 64 /\
  active_count (dev idle_world) = 0 /\
  - 10000000
    <= result (time_to_sf_qos_update_ns (K := demo_kernel)) idle_world <= -1.
Proof.
  assert (H1 : is_u32 (delay_max_ns (dev idle_world))) by concrete.
  assert (H2 : 1 <= delay_max_ns (dev idle_world) <= INT32_MAX) by concrete.
  assert (H3 : 0 <= delay_slope_shift (dev idle_world)) by concrete.
  assert (H4 : now (K := demo_kernel) idle_world
               * 2 ^ delay_slope_shift (dev idle_world) < 2 ^ 64)
    by concrete.
  split; [exact H1|]. split; [exact H2|]. split; [exact H3|].
  split; [exact H4|]. split; [reflexivity|].
  destruct (sign_tells_state (K := demo_kernel) idle_world H1 H2 H3 H4)
    as (_ & _ & Hidle).
  exact (Hidle eq_refl).
Defined.

Lemma result_decreases_with_time_witness :
  now_at (K := demo_kernel) 0 <= now_at (K := demo_kernel) 50 /\
  result (time_to_sf_qos_update_ns (K := demo_kernel))
         (World (dev active_world) None 50%nat [])
    <= result (time_to_sf_qos_update_ns (K := demo_kernel)) active_world.
Proof.
  assert (H1 : is_u32 (delay_max_ns (dev active_world))) by concrete.
  assert (H2 : 1 <= delay_max_ns (dev active_world) <= INT32_MAX)
    by concrete.
  assert (H3 : 0 <= delay_slope_shift (dev active_world)) by concrete.
  assert (H4 : now_at (K := demo_kernel) 0 <= now_at (K := demo_kernel) 50)
    by concrete.
  assert (H5 : now_at (K := demo_kernel) 50
               * 2 ^ delay_slope_shift (dev active_world) < 2 ^ 64)
    by concrete.
  split; [exact H4|].
  exact (result_decreases_with_time (K := demo_kernel) (dev active_world)
           0 50 None [] None [] H1 H2 H3 H4 H5).
Defined.

Lemma begin_starts_countdown_witness :
  result (time_to_sf_qos_update_ns (K := demo_kernel)) idle_world = -2000 /\
  now (K := demo_kernel) (run (intel_qos_overload_begin (K := demo_kernel))
                              idle_world)
    - now_at (K := demo_kernel) 1 = 300 /\
  result (time_to_sf_qos_update_ns (K := demo_kernel))
         (run (intel_qos_overload_begin (K := demo_kernel)) idle_world)
    = 1700.
Proof.
  split; [concrete|]. split; [concrete|].
  destruct (begin_starts_countdown (K := demo_kernel) idle_world)
    as [Hval _].
  - concrete.
  - concrete.
  - concrete.
  - concrete.
  - concrete.
  - rewrite Hval. vm_compute. reflexivity.
Defined.

Lemma end_seeds_idle_clock_witness :
  result (time_to_sf_qos_update_ns (K := demo_kernel)) active_world = 4000 /\
  active_count (dev active_world) = 1 /\
  now (K := demo_kernel) (run (intel_qos_overload_end (K := demo_kernel))
                              active_world)
    - now_at (K := demo_kernel) 1 = 300 /\
  result (time_to_sf_qos_update_ns (K := demo_kernel))
         (run (intel_qos_overload_end (K := demo_kernel)) active_world)
    = -4600.
Proof.
  split; [concrete|]. split; [concrete|]. split; [concrete|].
  rewrite (end_seeds_idle_clock (K := demo_kernel) active_world).
  - vm_compute. reflexivity.
  - concrete.
  - concrete.
  - concrete.
  - concrete.
  - concrete.
  - concrete.
  - concrete.
Defined.

Lemma callback_commits_at_deadline_witness :
  active_count (dev overdue_world) <> 0 /\
  qos_requests (trace (run (timer_fires (K := demo_kernel)) overdue_world))
    = [2] /\
  qos_requests (trace (run (timer_fires (K := demo_kernel)) active_world))
    = [-1].
Proof.
  assert (H1 : is_u32 (delay_max_ns (dev overdue_world))) by concrete.
  assert (H2 : active_count (dev overdue_world) <> 0) by concrete.
  assert (H3 : active_count (dev active_world) <> 0) by concrete.
  split; [exact H2|]. split.
  - rewrite (callback_commits_at_deadline (K := demo_kernel) overdue_world
               H1 H2).
    vm_compute. reflexivity.
  - rewrite (callback_commits_at_deadline (K := demo_kernel) active_world
               H1 H3).
    vm_compute. reflexivity.
Defined.

Lemma idle_callback_requests_default_witness :
  active_count (dev idle_world) = 0 /\
  run (timer_fires (K := demo_kernel)) idle_world =
    World (dev idle_world) None 1%nat [QosUpdateRequest (-1)].
Proof.
  split; [reflexivity|].
  rewrite (idle_callback_requests_default (K := demo_kernel) idle_world).
  - reflexivity.
  - concrete.
  - concrete.
  - concrete.
  - concrete.
  - concrete.
Defined.

Lemma last_end_arms_at_once_witness :
  active_count (dev active_world) = 1 /\
  timer_requests (trace (run (intel_qos_overload_end (K := demo_kernel))
                             active_world)) = [0].
Proof.
  split; [reflexivity|].
  rewrite (last_end_arms_at_once (K := demo_kernel) active_world).
  - vm_compute. reflexivity.
  - concrete.
  - concrete.
  - concrete.
Defined.


Lemma park_undoes_unpark_witness :
  GtPm.intel_display_power_get_at (Driver := demo_driver)
    (length (GtPm.calls demo_gt)) = 7 /\
  exists gt1 new,
    GtPm.__gt_unpark (D := demo_driver) demo_gt = Some (0, gt1) /\
    GtPm.awake gt1 = 7 /\
    GtPm.__gt_park (D := demo_driver) gt1 =
      Some (0, GtPm.Gt (GtPm.i915 demo_gt) 0 demo_engines new) /\
    power_calls new = [GtPm.display_power_put 7; GtPm.display_power_get].
Proof.
  split; [reflexivity|].
  destruct (park_undoes_unpark (D := demo_driver) demo_gt)
    as (gt1 & new & Hun & Haw & Hpark & Hpow & _).
  - concrete.
  - exists gt1, new. split; [exact Hun|]. split; [exact Haw|].
    split; [|exact Hpow].
    rewrite Hpark. cbn [GtPm.calls demo_gt GtPm.engines].
    now rewrite app_nil_r.
Defined.

Lemma export_without_uuid_support_witness :
  VirtGpu.has_resource_assign_uuid plain_device = false /\
  exists bo',
    VirtGpu.virtgpu_gem_prime_export (E := demo_env) plain_device demo_bo 2
      = (VirtGpu.Ptr 7, bo', [VirtGpu.gem_prime_export 2]) /\
    VirtGpu.virtgpu_gem_prime_get_uuid (E := demo_env) bo' 0
      = Some (-19, 0).
Proof.
  split; [reflexivity|].
  destruct (export_without_uuid_support (E := demo_env) plain_device
              demo_bo 2 eq_refl) as (bo' & Hexp & _ & Hget).
  exists bo'. split.
  - rewrite Hexp. injection Hexp as _ Hbo. rewrite <- Hbo. reflexivity.
  - exact (Hget 0).
Defined.

Lemma export_with_uuid_support_witness :
  VirtGpu.has_resource_assign_uuid uuid_device = true /\
  VirtGpu.virtgpu_gem_prime_export (E := demo_env) uuid_device demo_bo 2
    = (VirtGpu.Ptr 7, demo_bo,
       [VirtGpu.gem_prime_export 2; VirtGpu.cmd_resource_assign_uuid]) /\
  VirtGpu.virtgpu_gem_prime_export (E := demo_env) uuid_device
      (VirtGpu.Bo VirtGpu.UUID_INITIALIZING 0) 2
    = (VirtGpu.ERR_PTR (-12), VirtGpu.Bo VirtGpu.UUID_INITIALIZING 0,
       [VirtGpu.cmd_resource_assign_uuid]).
Proof.
  split; [reflexivity|]. split.
  - destruct (export_with_uuid_support (E := demo_env) uuid_device demo_bo 2
                eq_refl) as (_ & Hok & _).
    rewrite Hok; reflexivity.
  - destruct (export_with_uuid_support (E := demo_env) uuid_device
                (VirtGpu.Bo VirtGpu.UUID_INITIALIZING 0) 2 eq_refl)
      as (Hfail & _ & _).
    rewrite Hfail; [reflexivity|]. concrete.
Defined.

